(** * Audit-and-notification core of the CRM backend

    A shallow embedding of the Mongoose models [ActivityLog],
    [Notification] and [NotificationType]: the redaction of sensitive
    fields, the audit recorder, the template renderer, the notification
    dispatcher, the read-state tracker and the two expiry rules. *)

From Stdlib Require Import ZArith Ascii String PrimFloat.
From stdpp Require Import gmap strings list fin_maps pretty.

Local Open Scope Z_scope.

(** ** JavaScript values *)

Module Js.

(** The values a [Schema.Types.Mixed] path can hold: numbers are IEEE
    doubles, objects are maps from property names to values. *)
#[warnings="-register-all"]
Inductive Value : Type :=
  | Undefined
  | Null
  | Bool (b : bool)
  | Number (x : float)
  | Str (s : string)
  | Array (items : list Value)
  | Object (props : gmap string Value).

(** [ToBoolean]: what [if (v)] and [!v] test. *)
Definition truthy (v : Value) : bool :=
  match v with
  | Undefined | Null => false
  | Bool b => b
  | Number x => negb (PrimFloat.is_zero x || PrimFloat.is_nan x)
  | Str s => negb (String.eqb s "")
  | Array _ | Object _ => true
  end.

(** The [typeof] operator, as its result string. *)
Definition typeof (v : Value) : string :=
  match v with
  | Undefined => "undefined"
  | Null | Array _ | Object _ => "object"
  | Bool _ => "boolean"
  | Number _ => "number"
  | Str _ => "string"
  end.

(** Own enumerable properties, which is what the spread [{ ...v }]
    copies: the properties of an object, the indices of an array,
    nothing for [null], [undefined], booleans and numbers, and the
    character indices of a string. *)
Definition indexed {A} (l : list A) : gmap string A :=
  list_to_map (imap (fun i x => (pretty i, x)) l).

Definition chars (s : string) : list Value :=
  (fun c => Str (String c EmptyString)) <$> list_ascii_of_string s.

Definition spread (v : Value) : gmap string Value :=
  match v with
  | Object props => props
  | Array items => indexed items
  | Str s => indexed (chars s)
  | Undefined | Null | Bool _ | Number _ => ∅
  end.

(** White space as [\s] and [String.prototype.trim] see it, on ASCII
    text: tab, line feed, vertical tab, form feed, carriage return, space. *)
Definition is_space (c : ascii) : bool :=
  match nat_of_ascii c with
  | 9 | 10 | 11 | 12 | 13 | 32 => true
  | _ => false
  end%nat.

(** The longest run of white space at the head of a string, and the rest. *)
Fixpoint span_spaces (s : string) : string * string :=
  match s with
  | String c rest =>
      if is_space c then let '(sp, r) := span_spaces rest in (String c sp, r)
      else (EmptyString, s)
  | EmptyString => (EmptyString, EmptyString)
  end.

Definition trim (s : string) : string :=
  String.rev (span_spaces (String.rev (span_spaces s).2)).2.



(** Property read [o[k]], [undefined] when the property is absent. *)
Definition get (o : gmap string Value) (k : string) : Value :=
  default Undefined (o !! k).

(** A value that passes both tests [v] and [typeof v === 'object']:
    an object or an array. *)
Definition is_object (v : Value) : bool :=
  truthy v && String.eqb (typeof v) "object".

End Js.

(** ** Mongoose and MongoDB, as far as the models use them *)

Module Mongoose.

(** Why a path of a document failed [validate()]. *)
Inductive PathError : Type :=
  | CastFailure (path : string)
  | ValidatorFailure (path message : string).

Definition error_path (e : PathError) : string :=
  match e with
  | CastFailure p => p
  | ValidatorFailure p _ => p
  end.

(** How a promise returned by a model method rejects. *)
Inductive Error : Type :=
  | ValidationError (errors : list PathError)
  | QueryCastError (path : string)
  | DuplicateKeyError
  | DocumentNotFoundError
  | JsError (message : string).

Inductive Result (A : Type) : Type :=
  | Resolved (a : A)
  | Rejected (e : Error).
Arguments Resolved {A} a.
Arguments Rejected {A} e.

(** Casting a string to an [ObjectId] is the driver's business: the
    models only rely on it succeeding or failing. *)
Class ObjectIdCast (ObjectId : Type) : Type :=
  castObjectId : string → option ObjectId.

Definition cast_failure {A} (path : string) (casted : option A) : list PathError :=
  match casted with
  | Some _ => []
  | None => [CastFailure path]
  end.

(** The built-in validators of a [String] path.  [required] rejects the
    empty string and runs first; [enum] and [maxlength] run on the values
    that are there. *)
Definition required (path message value : string) : list PathError :=
  if String.eqb value "" then [ValidatorFailure path message] else [].

Definition enum (path : string) (values : list string) (message value : string)
  : list PathError :=
  if bool_decide (value ∈ values) then [] else [ValidatorFailure path message].

Definition maxlength (path : string) (n : nat) (message value : string)
  : list PathError :=
  if bool_decide (String.length value ≤ n)%nat then []
  else [ValidatorFailure path message].

(** Only the first failing validator of a path is reported. *)
Definition first_failure (es : list PathError) : list PathError := take 1 es.

(** A TTL index: MongoDB's background monitor deletes a document once
    the date under the indexed key is [expireAfterSeconds] old.  A
    document without that date, or outside the partial filter, is not in
    the index and never expires.  Dates are milliseconds since the epoch. *)
Record TTLIndex (Doc : Type) : Type := {
  ttl_key : Doc → option Z;
  expireAfterSeconds : Z;
  partialFilterExpression : Doc → bool
}.
Arguments ttl_key {Doc} _ _.
Arguments expireAfterSeconds {Doc} _.
Arguments partialFilterExpression {Doc} _ _.

Definition expired {Doc} (idx : TTLIndex Doc) (now : Z) (doc : Doc) : bool :=
  partialFilterExpression idx doc &&
  match ttl_key idx doc with
  | Some date => bool_decide (date + expireAfterSeconds idx * 1000 ≤ now)
  | None => false
  end.

(** One pass of the TTL monitor at time [now]. *)
Definition ttl_pass `{Countable K} {Doc} (idx : TTLIndex Doc) (now : Z)
    (coll : gmap K Doc) : gmap K Doc :=
  filter (fun kv => expired idx now kv.2 = false) coll.

End Mongoose.

(** ** The audit recorder: model [ActivityLog] *)

Module ActivityLog.
Import Mongoose.

Record Doc (ObjectId : Type) : Type := {
  _id : ObjectId;
  changed_by : ObjectId;
  entity_id : ObjectId;
  entity_type : string;
  action : string;
  old_data : Js.Value;
  new_data : Js.Value;
  created_at : Z
}.
Arguments _id {ObjectId} _.
Arguments changed_by {ObjectId} _.
Arguments entity_id {ObjectId} _.
Arguments entity_type {ObjectId} _.
Arguments action {ObjectId} _.
Arguments old_data {ObjectId} _.
Arguments new_data {ObjectId} _.
Arguments created_at {ObjectId} _.

Definition entity_types : list string :=
  [ "users"; "customers"; "leads"; "projects"; "project_services";
    "goals"; "tasks"; "files"; "notifications"; "notification_types";
    "messages"; "message_attachments"; "business_directories";
    "customer_charge_details"; "upsells" ].

Definition actions : list string := [ "create"; "update"; "delete"; "view" ].

Definition sensitiveFields : list string :=
  [ "password"; "card_number"; "cvv"; "ssn"; "tax_id" ].

Definition REDACTED : Js.Value := Js.Str "***REDACTED***".

(** The body of the [forEach]: a sensitive field with a truthy value
    is overwritten with the marker. *)
Definition redact_field (sanitized : gmap string Js.Value) (field : string)
  : gmap string Js.Value :=
  if Js.truthy (Js.get sanitized field) then <[field := REDACTED]> sanitized
  else sanitized.

(** [if (!data || typeof data !== 'object') return data], then the
    spread copy, then the loop over the sensitive fields. *)
Definition sanitizeData (data : Js.Value) : Js.Value :=
  if negb (Js.truthy data) || negb (String.eqb (Js.typeof data) "object") then data
  else Js.Object (foldl redact_field (Js.spread data) sensitiveFields).

(** The TTL index on [created_at], [expireAfterSeconds: 63072000]. *)
Definition ttl_index {ObjectId} : TTLIndex (Doc ObjectId) :=
  {| ttl_key := fun doc => Some (created_at doc);
     expireAfterSeconds := 63072000;
     partialFilterExpression := fun _ => true |}.

(** When the index lets go of a record: two years of 365 days after
    its creation, in milliseconds. *)
Definition expiry {ObjectId} (doc : Doc ObjectId) : Z :=
  created_at doc + 2 * 365 * 24 * 60 * 60 * 1000.

(** The collection after the TTL monitor has passed at each of [times]. *)
Definition retention `{Countable ObjectId} (times : list Z)
    (logs : gmap ObjectId (Doc ObjectId)) : gmap ObjectId (Doc ObjectId) :=
  foldl (fun coll now => ttl_pass ttl_index now coll) logs times.

Section Model.
Context {ObjectId : Type} `{Countable ObjectId} `{!ObjectIdCast ObjectId}.

(** The [pre('save')] hook. *)
Definition pre_save (this : Doc ObjectId) : Doc ObjectId :=
  let old := if Js.truthy (old_data this) then sanitizeData (old_data this)
             else old_data this in
  let new := if Js.truthy (new_data this) then sanitizeData (new_data this)
             else new_data this in
  {| _id := _id this; changed_by := changed_by this; entity_id := entity_id this;
     entity_type := entity_type this; action := action this;
     old_data := old; new_data := new; created_at := created_at this |}.

(** [default: null] of the two [Mixed] paths. *)
Definition or_null (v : Js.Value) : Js.Value :=
  match v with
  | Js.Undefined => Js.Null
  | _ => v
  end.

Definition validate_entity_type (entityType : string) : list PathError :=
  first_failure
    (required "entity_type" "Entity type is required" entityType ++
     enum "entity_type" entity_types "Entity type must be a valid collection name"
          entityType).

Definition validate_action (action : string) : list PathError :=
  first_failure
    (required "action" "Action is required" action ++
     enum "action" actions "Action must be one of: create, update, delete, view"
          action).

(** [createLog] is [this.create({...})]: build the document, validate
    it, run the [pre('save')] hook, insert it.  [now] is the clock at the
    save and [oid] the identifier the driver generates for the record. *)
Definition createLog (now : Z) (oid : ObjectId)
    (changedBy entityId entityType action : string) (oldData newData : Js.Value)
    (logs : gmap ObjectId (Doc ObjectId))
  : Result (Doc ObjectId) * gmap ObjectId (Doc ObjectId) :=
  let by_ := castObjectId changedBy in
  let on_ := castObjectId entityId in
  let errors := cast_failure "changed_by" by_ ++ cast_failure "entity_id" on_ ++
                validate_entity_type entityType ++ validate_action action in
  match by_, on_, errors with
  | Some changed, Some entity, [] =>
      let doc := pre_save
        {| _id := oid; changed_by := changed; entity_id := entity;
           entity_type := entityType; action := action;
           old_data := or_null oldData; new_data := or_null newData;
           created_at := now |} in
      match logs !! oid with
      | None => (Resolved doc, <[oid := doc]> logs)
      | Some _ => (Rejected DuplicateKeyError, logs)
      end
  | _, _, _ => (Rejected (ValidationError errors), logs)
  end.

End Model.

End ActivityLog.


(** ** The template registry: model [NotificationType] *)

Module NotificationType.
Import Mongoose.

Record Doc (ObjectId : Type) : Type := {
  _id : ObjectId;
  key : string;
  description : option string;
  template : string;
  created_at : Z;
  updated_at : Z
}.
Arguments _id {ObjectId} _.
Arguments key {ObjectId} _.
Arguments description {ObjectId} _.
Arguments template {ObjectId} _.
Arguments created_at {ObjectId} _.
Arguments updated_at {ObjectId} _.

(** [s] without the prefix [p], when it starts with it. *)
Fixpoint strip_prefix (p s : string) : option string :=
  match p, s with
  | EmptyString, _ => Some s
  | String a p', String b s' => if Ascii.eqb a b then strip_prefix p' s' else None
  | String _ _, EmptyString => None
  end.

(** A match of [new RegExp(`{{\\s*${key}\\s*}}`)] at the head of [s]: the
    text matched and what follows it.  The key stands for itself in the
    pattern, which is how the engine reads a key made of letters, digits
    and underscores; both [\s*] are greedy and never have to give back,
    since neither such a key nor a closing brace starts with white space. *)
Definition match_placeholder (key s : string) : option (string * string) :=
  match strip_prefix "{{" s with
  | None => None
  | Some s1 =>
      let (sp1, s2) := Js.span_spaces s1 in
      match strip_prefix key s2 with
      | None => None
      | Some s3 =>
          let (sp2, s4) := Js.span_spaces s3 in
          match strip_prefix "}}" s4 with
          | None => None
          | Some after => Some ("{{" +:+ sp1 +:+ key +:+ sp2 +:+ "}}", after)
          end
      end
  end.

(** The replacement text of [String.prototype.replace] for a pattern
    without capture groups: [$$] is a dollar sign, [$&] the match, [$`]
    and [$'] the text before and after it; any other [$] stands for
    itself. *)
Fixpoint getSubstitution (matched before after replacement : string) : string :=
  match replacement with
  | EmptyString => EmptyString
  | String c tail =>
      if Ascii.eqb c "$" then
        match tail with
        | String d rest =>
            if Ascii.eqb d "$" then
              String "$" (getSubstitution matched before after rest)
            else if Ascii.eqb d "&" then
              matched +:+ getSubstitution matched before after rest
            else if Ascii.eqb d "`" then
              before +:+ getSubstitution matched before after rest
            else if Ascii.eqb d "'" then
              after +:+ getSubstitution matched before after rest
            else String c (getSubstitution matched before after tail)
        | EmptyString => String c EmptyString
        end
      else String c (getSubstitution matched before after tail)
  end.

(** [s.replace(placeholder, replacement)] with the [g] flag, from the
    position that has [before] on its left: every match, left to right
    and without overlap, gives way to its substitution.  Each step
    consumes a character of [s], so [S (length s)] steps are enough. *)
Fixpoint replace_from (fuel : nat) (key replacement before s : string) : string :=
  match fuel with
  | O => s
  | S fuel =>
      match match_placeholder key s with
      | Some (matched, after) =>
          getSubstitution matched before after replacement +:+
          replace_from fuel key replacement (before +:+ matched) after
      | None =>
          match s with
          | EmptyString => EmptyString
          | String c rest =>
              String c (replace_from fuel key replacement
                                     (before +:+ String c EmptyString) rest)
          end
      end
  end.

Definition replace_at (key replacement before s : string) : string :=
  replace_from (S (String.length s)) key replacement before s.

Definition replace_all (key replacement s : string) : string :=
  replace_at key replacement "" s.

(** [variables[key] || ''] on a string value. *)
Definition or_empty (value : string) : string :=
  if String.eqb value "" then "" else value.

(** [renderTemplate]: one global replacement per key of [variables],
    in the order [Object.keys] lists them. *)
Definition renderTemplate {ObjectId} (this : Doc ObjectId)
    (variables : list (string * string)) : string :=
  foldl (fun rendered kv => replace_all kv.1 (or_empty kv.2) rendered)
        (template this) variables.

(** [findOne({ key })]. *)
Definition findOne {ObjectId} (k : string) (types : list (Doc ObjectId))
  : option (Doc ObjectId) :=
  List.find (fun t => String.eqb (key t) k) types.

(** Templates as the seeded catalogue writes them: literal text and
    [{{name}}] markers. *)
Inductive Segment : Type :=
  | Text (s : string)
  | Placeholder (name : string).

Definition segment_text (seg : Segment) : string :=
  match seg with
  | Text s => s
  | Placeholder name => "{{" +:+ name +:+ "}}"
  end.

Definition unparse (segs : list Segment) : string :=
  foldr (fun seg rest => segment_text seg +:+ rest) "" segs.

(** The value listed for a name, if any. *)
Fixpoint lookup_value (name : string) (variables : list (string * string))
  : option string :=
  match variables with
  | [] => None
  | (k, v) :: rest => if String.eqb k name then Some v else lookup_value name rest
  end.

(** What the rendering of the specification puts for a segment: the
    value of a placeholder, or nothing when there is none. *)
Definition render_segment_spec (variables : list (string * string)) (seg : Segment)
  : string :=
  match seg with
  | Text s => s
  | Placeholder name => default "" (lookup_value name variables)
  end.

Definition render_spec (variables : list (string * string)) (segs : list Segment)
  : string :=
  foldr (fun seg rest => render_segment_spec variables seg +:+ rest) "" segs.

(** What [renderTemplate] leaves for a segment: a placeholder without a
    value stays as written. *)
Definition render_segment (variables : list (string * string)) (seg : Segment)
  : string :=
  match seg with
  | Text s => s
  | Placeholder name =>
      match lookup_value name variables with
      | Some v => v
      | None => "{{" +:+ name +:+ "}}"
      end
  end.

Definition rendered (variables : list (string * string)) (segs : list Segment)
  : string :=
  foldr (fun seg rest => render_segment variables seg +:+ rest) "" segs.

(** One replacement pass, on segments: the placeholders of [key] become
    the replacement text. *)
Definition fill (key replacement : string) (seg : Segment) : Segment :=
  match seg with
  | Text s => Text s
  | Placeholder name =>
      if String.eqb key name then Text replacement else Placeholder name
  end.

Definition is_word_char (c : ascii) : bool :=
  let n := nat_of_ascii c in
  ((48 <=? n) && (n <=? 57) || (65 <=? n) && (n <=? 90) ||
   (97 <=? n) && (n <=? 122) || (n =? 95))%nat.

(** A name made of letters, digits and underscores. *)
Definition plain_name (s : string) : bool :=
  forallb is_word_char (list_ascii_of_string s).

(** A string without the given character. *)
Definition free_of (c : ascii) (s : string) : bool :=
  forallb (fun d => negb (Ascii.eqb d c)) (list_ascii_of_string s).

Definition plain_segment (seg : Segment) : bool :=
  match seg with
  | Text s => free_of "{" s
  | Placeholder name => plain_name name
  end.

Definition plain_binding (kv : string * string) : bool :=
  plain_name kv.1 && free_of "{" kv.2 && free_of "$" kv.2.


(** The double quote of the seeded templates. *)
Definition dq : string := String (ascii_of_nat 34) EmptyString.

(** The catalogue of [seedDefaultTypes]: key, description, template. *)
Definition defaultTypes : list (string * string * string) :=
  [ ("project_created", "Notification when a new project is created",
     "New project " +:+ dq +:+ "{{project_name}}" +:+ dq +:+
     " has been created and assigned to {{manager_name}}.");
    ("task_assigned", "Notification when a task is assigned to a user",
     "You have been assigned a new task: " +:+ dq +:+ "{{task_title}}" +:+ dq +:+
     " in project " +:+ dq +:+ "{{project_name}}" +:+ dq +:+ ".");
    ("task_completed", "Notification when a task is completed",
     "Task " +:+ dq +:+ "{{task_title}}" +:+ dq +:+
     " has been completed by {{employee_name}}.");
    ("project_status_changed", "Notification when project status changes",
     "Project " +:+ dq +:+ "{{project_name}}" +:+ dq +:+
     " status has been changed from {{old_status}} to {{new_status}}.");
    ("lead_converted", "Notification when a lead is converted to customer",
     "Lead " +:+ dq +:+ "{{customer_name}}" +:+ dq +:+
     " has been successfully converted to a customer by {{agent_name}}.");
    ("payment_received", "Notification when payment is received",
     "Payment of ${{amount}} has been received for project " +:+ dq +:+
     "{{project_name}}" +:+ dq +:+ ".");
    ("goal_created", "Notification when a new goal is created",
     "New goal " +:+ dq +:+ "{{goal_title}}" +:+ dq +:+
     " has been created for project " +:+ dq +:+ "{{project_name}}" +:+ dq +:+ ".");
    ("file_uploaded", "Notification when a file is uploaded to a project",
     "{{uploader_name}} has uploaded a new file " +:+ dq +:+ "{{file_name}}" +:+ dq +:+
     " to project " +:+ dq +:+ "{{project_name}}" +:+ dq +:+ ".");
    ("project_overdue", "Notification when a project becomes overdue",
     "Project " +:+ dq +:+ "{{project_name}}" +:+ dq +:+
     " is overdue. Expected completion date was {{end_date}}.");
    ("upsell_opportunity", "Notification for upsell opportunities",
     "Upsell opportunity of ${{amount}} identified for project " +:+ dq +:+
     "{{project_name}}" +:+ dq +:+ ".") ].

(** The [$set] of [findOneAndUpdate] on the first document with the
    key, if there is one; the timestamps option moves [updated_at]. *)
Fixpoint update_first {ObjectId} (now : Z) (k description template : string)
    (types : list (Doc ObjectId)) : option (Doc ObjectId * list (Doc ObjectId)) :=
  match types with
  | [] => None
  | t :: rest =>
      if String.eqb (key t) k then
        let t' := {| _id := _id t; key := k; description := Some description;
                     template := template; created_at := created_at t;
                     updated_at := now |} in
        Some (t', t' :: rest)
      else
        match update_first now k description template rest with
        | Some (t', rest') => Some (t', t :: rest')
        | None => None
        end
  end.

(** [findOneAndUpdate({ key }, type, { upsert: true, new: true })]: the
    document after the update, and the collection.  Without a document
    of that key one is inserted, under the identifier [oid].  The values
    are written as given: the setters of the schema ([trim], [lowercase])
    leave the entries of the default catalogue as they are, and an
    update runs no validator. *)
Definition findOneAndUpdate {ObjectId} (now : Z) (oid : ObjectId)
    (type : string * string * string) (types : list (Doc ObjectId))
  : Doc ObjectId * list (Doc ObjectId) :=
  let '(k, description, template) := type in
  match update_first now k description template types with
  | Some updated => updated
  | None =>
      let t := {| _id := oid; key := k; description := Some description;
                  template := template; created_at := now; updated_at := now |} in
      (t, types ++ [t])
  end.

(** The loop of [seedDefaultTypes] from its [i]-th round on; [env i] is
    the clock and the identifier at hand in round [i]. *)
Fixpoint seed_from {ObjectId} (env : nat → Z * ObjectId) (i : nat)
    (defaults : list (string * string * string)) (types : list (Doc ObjectId))
  : list (Doc ObjectId) :=
  match defaults with
  | [] => types
  | type :: rest =>
      seed_from env (S i) rest
                (findOneAndUpdate (env i).1 (env i).2 type types).2
  end.

Definition seedDefaultTypes {ObjectId} (env : nat → Z * ObjectId)
    (types : list (Doc ObjectId)) : list (Doc ObjectId) :=
  seed_from env 0 defaultTypes types.

(** The keys of a catalogue. *)
Definition keys_of (defaults : list (string * string * string)) : list string :=
  (fun type => type.1.1) <$> defaults.

(** Two documents that differ in [updated_at] at most. *)
Definition same_content {ObjectId} (a b : Doc ObjectId) : Prop :=
  _id a = _id b ∧ key a = key b ∧ description a = description b ∧
  template a = template b ∧ created_at a = created_at b.

End NotificationType.

(** ** The dispatcher and the read-state tracker: model [Notification] *)

Module Notification.
Import Mongoose.

Record Doc (ObjectId : Type) : Type := {
  _id : ObjectId;
  user_id : ObjectId;
  triggered_by : option ObjectId;
  notification_type_id : ObjectId;
  entity_id : option ObjectId;
  entity_type : option string;
  type : string;
  title : string;
  is_read : bool;
  read_at : option Z;
  created_at : Z
}.
Arguments _id {ObjectId} _.
Arguments user_id {ObjectId} _.
Arguments triggered_by {ObjectId} _.
Arguments notification_type_id {ObjectId} _.
Arguments entity_id {ObjectId} _.
Arguments entity_type {ObjectId} _.
Arguments type {ObjectId} _.
Arguments title {ObjectId} _.
Arguments is_read {ObjectId} _.
Arguments read_at {ObjectId} _.
Arguments created_at {ObjectId} _.

(** The two collections the model reads and writes. *)
Record DB (ObjectId : Type) `{Countable ObjectId} : Type := {
  notification_types : list (NotificationType.Doc ObjectId);
  notifications : gmap ObjectId (Doc ObjectId)
}.
Arguments notification_types {ObjectId _ _} _.
Arguments notifications {ObjectId _ _} _.

Definition entity_types : list string :=
  [ "projects"; "tasks"; "goals"; "leads"; "customers";
    "files"; "upsells"; "messages"; "users" ].

Definition types : list string := [ "info"; "warning"; "success"; "error" ].

(** Assignment to the two paths of the read state. *)
Definition set_read_state {ObjectId} (this : Doc ObjectId)
    (read : bool) (at_ : option Z) : Doc ObjectId :=
  {| _id := _id this; user_id := user_id this; triggered_by := triggered_by this;
     notification_type_id := notification_type_id this;
     entity_id := entity_id this; entity_type := entity_type this;
     type := type this; title := title this;
     is_read := read; read_at := at_; created_at := created_at this |}.

(** The validator of [read_at]; Mongoose does not run it on an absent
    value. *)
Definition validate_read_at {ObjectId} (this : Doc ObjectId) : list PathError :=
  match read_at this with
  | Some _ =>
      if is_read this then []
      else [ValidatorFailure "read_at"
              "Read date should be set only when notification is read"]
  | None => []
  end.

(** The validators of the schema, in the order of its paths. *)
Definition validate_fields (entity_type : option string) (type title : string)
  : list PathError :=
  match entity_type with
  | Some e => enum "entity_type" entity_types
                   "Entity type must be a valid collection name" e
  | None => []
  end ++
  enum "type" types "Type must be one of: info, warning, success, error" type ++
  first_failure
    (required "title" "Notification title is required" title ++
     maxlength "title" 200 "Title cannot exceed 200 characters" title).

Definition validate {ObjectId} (this : Doc ObjectId) : list PathError :=
  validate_fields (entity_type this) (type this) (title this) ++
  validate_read_at this.

(** The [pre('save')] hook; [modified] is [this.isModified('is_read')]. *)
Definition pre_save {ObjectId} (now : Z) (modified : bool) (this : Doc ObjectId)
  : Doc ObjectId :=
  if modified then
    if is_read this && negb (bool_decide (is_Some (read_at this)))
    then set_read_state this (is_read this) (Some now)
    else if negb (is_read this)
         then set_read_state this (is_read this) None
         else this
  else this.

(** The TTL index on [read_at]: [expireAfterSeconds: 7776000] with the
    partial filter [{ is_read: true }]. *)
Definition ttl_index {ObjectId} : TTLIndex (Doc ObjectId) :=
  {| ttl_key := read_at;
     expireAfterSeconds := 7776000;
     partialFilterExpression := is_read |}.

(** [cutoffDate.setDate(cutoffDate.getDate() - days)], in a time zone
    whose days all have 24 hours. *)
Definition cutoffDate (now days : Z) : Z := now - days * 86400000.



Section Model.
Context {ObjectId : Type} `{Countable ObjectId} `{!ObjectIdCast ObjectId}.

Definition with_notifications (db : DB ObjectId)
    (coll : gmap ObjectId (Doc ObjectId)) : DB ObjectId :=
  {| notification_types := notification_types db; notifications := coll |}.

(** [this.save()] of a loaded document whose paths [is_read] and
    [read_at] were assigned: validation, the [pre('save')] hook, then an
    update of the modified paths of the stored document.  Nothing is
    written when no path is modified. *)
Definition save (now : Z) (modified_is_read modified_read_at : bool)
    (this : Doc ObjectId) (db : DB ObjectId) : Result (Doc ObjectId) * DB ObjectId :=
  match validate this with
  | [] =>
      let this' := pre_save now modified_is_read this in
      let modified_read_at :=
        modified_read_at || negb (bool_decide (read_at this' = read_at this)) in
      if modified_is_read || modified_read_at then
        match notifications db !! _id this with
        | Some stored =>
            let stored' :=
              set_read_state stored
                (if modified_is_read then is_read this' else is_read stored)
                (if modified_read_at then read_at this' else read_at stored) in
            (Resolved this', with_notifications db (<[_id this := stored']> (notifications db)))
        | None => (Rejected DocumentNotFoundError, db)
        end
      else (Resolved this', db)
  | errors => (Rejected (ValidationError errors), db)
  end.

(** An assignment marks a path modified when it changes its value. *)
Definition markAsRead (now : Z) (this : Doc ObjectId) (db : DB ObjectId)
  : Result (Doc ObjectId) * DB ObjectId :=
  save now (negb (is_read this)) (negb (bool_decide (read_at this = Some now)))
       (set_read_state this true (Some now)) db.

Definition markAsUnread (now : Z) (this : Doc ObjectId) (db : DB ObjectId)
  : Result (Doc ObjectId) * DB ObjectId :=
  save now (is_read this) (bool_decide (is_Some (read_at this)))
       (set_read_state this false None) db.

(** The filter [{ user_id: userId, is_read: false }]. *)
Definition unread_of (user : ObjectId) (doc : Doc ObjectId) : bool :=
  bool_decide (user_id doc = user) && negb (is_read doc).

Definition getUnreadCount (userId : string) (db : DB ObjectId) : Result nat :=
  match castObjectId userId with
  | Some user => Resolved (size (filter (fun kv => unread_of user kv.2 = true)
                                        (notifications db)))
  | None => Rejected (QueryCastError "user_id")
  end.

(** [updateMany]: every document the filter selects gets both paths
    set; the result is the number of documents modified. *)
Definition markAllAsRead (now : Z) (userId : string) (db : DB ObjectId)
  : Result nat * DB ObjectId :=
  match castObjectId userId with
  | Some user =>
      (Resolved (size (filter (fun kv => unread_of user kv.2 = true)
                              (notifications db))),
       with_notifications db
         ((fun doc => if unread_of user doc
                      then set_read_state doc true (Some now) else doc)
          <$> notifications db))
  | None => (Rejected (QueryCastError "user_id"), db)
  end.

(** Casting an optional identifier: absent stays absent. *)
Definition cast_optional (value : option string) : option (option ObjectId) :=
  match value with
  | None => Some None
  | Some s => Some <$> castObjectId s
  end.

(** [createNotification]: the type is looked up by key, then
    [this.create({...})] builds the document ([trim] setters, defaults),
    validates it, runs the hook and inserts it under the identifier
    [oid] the driver generates.  [type] is [None] when the argument is
    left out. *)
Definition createNotification (now : Z) (oid : ObjectId)
    (userId notificationTypeKey title : string) (type : option string)
    (triggeredBy entityId entityType : option string) (db : DB ObjectId)
  : Result (Doc ObjectId) * DB ObjectId :=
  match NotificationType.findOne notificationTypeKey (notification_types db) with
  | None =>
      (Rejected (JsError ("Notification type '" +:+ notificationTypeKey +:+
                          "' not found")), db)
  | Some notificationType =>
      let user := castObjectId userId in
      let trigger := cast_optional triggeredBy in
      let entity := cast_optional entityId in
      let errors :=
        cast_failure "user_id" user ++ cast_failure "triggered_by" trigger ++
        cast_failure "entity_id" entity ++
        validate_fields (Js.trim <$> entityType) (default "info" type) (Js.trim title) in
      match user, trigger, entity, errors with
      | Some user, Some trigger, Some entity, [] =>
          let this := pre_save now false
            {| _id := oid; user_id := user; triggered_by := trigger;
               notification_type_id := NotificationType._id notificationType;
               entity_id := entity; entity_type := Js.trim <$> entityType;
               type := default "info" type; title := Js.trim title;
               is_read := false; read_at := None; created_at := now |} in
          match notifications db !! oid with
          | None => (Resolved this,
                     with_notifications db (<[oid := this]> (notifications db)))
          | Some _ => (Rejected DuplicateKeyError, db)
          end
      | _, _, _, _ => (Rejected (ValidationError errors), db)
      end
  end.

(** [cleanupOldNotifications(days = 30)]: [deleteMany] of the read
    notifications whose [read_at] is before the cut-off; the result is
    the number of documents deleted. *)
Definition stale (cutoff : Z) (doc : Doc ObjectId) : bool :=
  is_read doc &&
  match read_at doc with
  | Some date => bool_decide (date < cutoff)
  | None => false
  end.

Definition cleanupOldNotifications (now : Z) (days : option Z) (db : DB ObjectId)
  : Result nat * DB ObjectId :=
  let cutoff := cutoffDate now (default 30 days) in
  (Resolved (size (filter (fun kv => stale cutoff kv.2 = true) (notifications db))),
   with_notifications db
     (filter (fun kv => stale cutoff kv.2 = false) (notifications db))).

(** The operations that write the collection, as a caller issues
    them; the read-state methods run on the document [findById] loads. *)
Inductive Op : Type :=
  | Dispatch (now : Z) (oid : ObjectId) (userId notificationTypeKey title : string)
             (type : option string) (triggeredBy entityId entityType : option string)
  | MarkRead (now : Z) (id : ObjectId)
  | MarkUnread (now : Z) (id : ObjectId)
  | MarkAllRead (now : Z) (userId : string)
  | Cleanup (now : Z) (days : option Z)
  | Expire (now : Z).

Definition run (db : DB ObjectId) (op : Op) : DB ObjectId :=
  match op with
  | Dispatch now oid userId k title type triggeredBy entityId entityType =>
      (createNotification now oid userId k title type triggeredBy entityId entityType db).2
  | MarkRead now id =>
      match notifications db !! id with
      | Some this => (markAsRead now this db).2
      | None => db
      end
  | MarkUnread now id =>
      match notifications db !! id with
      | Some this => (markAsUnread now this db).2
      | None => db
      end
  | MarkAllRead now userId => (markAllAsRead now userId db).2
  | Cleanup now days => (cleanupOldNotifications now days db).2
  | Expire now => with_notifications db (ttl_pass ttl_index now (notifications db))
  end.

(** The store after a history of operations on an empty collection. *)
Definition after (types : list (NotificationType.Doc ObjectId)) (history : list Op)
  : DB ObjectId :=
  foldl run {| notification_types := types; notifications := ∅ |} history.



(** A document whose paths other than the read state pass validation. *)
Definition fields_valid (this : Doc ObjectId) : Prop :=
  validate_fields (entity_type this) (type this) (title this) = [].

End Model.

End Notification.

(** ** An instance for worked examples *)

Module Example.
Import Mongoose.

Definition is_hex (c : ascii) : bool :=
  let n := nat_of_ascii c in
  ((48 <=? n) && (n <=? 57) || (97 <=? n) && (n <=? 102))%nat.

(** Identifiers written as 24 lowercase hexadecimal digits. *)
#[export] Instance hex_ids : ObjectIdCast string := fun s =>
  if ((String.length s =? 24)%nat && forallb is_hex (list_ascii_of_string s))%bool
  then Some s else None.

Definition alice : string := "64b000000000000000000001".
Definition bob : string := "64b000000000000000000002".
Definition id1 : string := "64b0000000000000000000a1".
Definition id2 : string := "64b0000000000000000000a2".
Definition id3 : string := "64b0000000000000000000a3".
Definition id4 : string := "64b0000000000000000000a4".
Definition id5 : string := "64b0000000000000000000a5".

(** [{ password: 'p1', name: 'Bob' }] and [{ password: 'p2', name: 'Bob' }]. *)
Definition old_state : Js.Value :=
  Js.Object {[ "password" := Js.Str "p1"; "name" := Js.Str "Bob" ]}.
Definition new_state : Js.Value :=
  Js.Object {[ "password" := Js.Str "p2"; "name" := Js.Str "Bob" ]}.

(** [{ cvv: 0, name: 'Bob' }]. *)
Definition zero_cvv : Js.Value :=
  Js.Object {[ "cvv" := Js.Number 0%float; "name" := Js.Str "Bob" ]}.

(** The double quote character. *)
Definition quote : string := String (ascii_of_nat 34) EmptyString.

(** The seeded type [task_assigned] and its template, in segments. *)
Definition task_assigned_segments : list NotificationType.Segment :=
  [ NotificationType.Text ("You have been assigned a new task: " +:+ quote);
    NotificationType.Placeholder "task_title";
    NotificationType.Text (quote +:+ " in project " +:+ quote);
    NotificationType.Placeholder "project_name";
    NotificationType.Text (quote +:+ ".") ].

Definition task_assigned : NotificationType.Doc string :=
  {| NotificationType._id := id1;
     NotificationType.key := "task_assigned";
     NotificationType.description :=
       Some "Notification when a task is assigned to a user";
     NotificationType.template :=
       "You have been assigned a new task: " +:+ quote +:+ "{{task_title}}" +:+
       quote +:+ " in project " +:+ quote +:+ "{{project_name}}" +:+ quote +:+ ".";
     NotificationType.created_at := 0;
     NotificationType.updated_at := 0 |}.

(** A notification for [user], unread or read at [at_]. *)
Definition note (id user : string) (read : bool) (at_ : option Z)
  : Notification.Doc string :=
  {| Notification._id := id; Notification.user_id := user;
     Notification.triggered_by := None;
     Notification.notification_type_id := id1;
     Notification.entity_id := None; Notification.entity_type := Some "tasks";
     Notification.type := "info"; Notification.title := "A task for you";
     Notification.is_read := read; Notification.read_at := at_;
     Notification.created_at := 0 |}.

(** Alice has an unread notification and one read at time 0; Bob has
    an unread one. *)
Definition inbox : Notification.DB string :=
  {| Notification.notification_types := [task_assigned];
     Notification.notifications :=
       {[ id2 := note id2 alice false None;
          id3 := note id3 alice true (Some 0);
          id4 := note id4 bob false None ]} |}.

(** Forty days, in milliseconds. *)
Definition forty_days : Z := 40 * 86400000.


(** A type with the given template. *)
Definition type_with (k template : string) : NotificationType.Doc string :=
  {| NotificationType._id := id1; NotificationType.key := k;
     NotificationType.description := None;
     NotificationType.template := template;
     NotificationType.created_at := 0; NotificationType.updated_at := 0 |}.

(** The clock and the identifiers of the rounds of a seeding. *)
Definition rounds (i : nat) : Z * string := (7000 + Z.of_nat i, pretty i).

(** The record of [createLog(alice, bob, 'users', 'update', old_state,
    new_state)]. *)
Definition update_log : ActivityLog.Doc string :=
  {| ActivityLog._id := id1; ActivityLog.changed_by := alice;
     ActivityLog.entity_id := bob; ActivityLog.entity_type := "users";
     ActivityLog.action := "update";
     ActivityLog.old_data :=
       Js.Object {[ "password" := ActivityLog.REDACTED; "name" := Js.Str "Bob" ]};
     ActivityLog.new_data :=
       Js.Object {[ "password" := ActivityLog.REDACTED; "name" := Js.Str "Bob" ]};
     ActivityLog.created_at := 1000 |}.


End Example.


(** * Properties *)

(** ** Redaction *)

Section Redaction.
Import Mongoose ActivityLog.

Lemma redact_field_lookup sanitized field k :
  redact_field sanitized field !! k =
  if bool_decide (k = field) && Js.truthy (Js.get sanitized k)
  then Some REDACTED else sanitized !! k.
Proof.
  unfold redact_field. case_bool_decide as Hk; simpl.
  - subst k. destruct (Js.truthy (Js.get sanitized field)); [|done].
    by rewrite lookup_insert_eq.
  - destruct (Js.truthy (Js.get sanitized field)); [|done].
    by rewrite lookup_insert_ne.
Qed.

Lemma redact_fields_lookup fields sanitized k :
  foldl redact_field sanitized fields !! k =
  if bool_decide (k ∈ fields) && Js.truthy (Js.get sanitized k)
  then Some REDACTED else sanitized !! k.
Proof.
  revert sanitized. induction fields as [|f fields IH]; intros sanitized.
  - case_bool_decide as Hin; [by apply not_elem_of_nil in Hin | done].
  - cbn [foldl]. rewrite IH. unfold Js.get. rewrite !redact_field_lookup.
    unfold Js.get. rewrite (bool_decide_ext _ _ (elem_of_cons fields k f)).
    rewrite bool_decide_or.
    destruct (bool_decide (k = f)) eqn:Hkf, (bool_decide (k ∈ fields)) eqn:Hin;
      cbn [orb andb];
      destruct (Js.truthy (default Js.Undefined (sanitized !! k))) eqn:Ht;
      cbn [default andb]; rewrite ?Ht; done.
Qed.

Lemma sanitizeData_not_object data :
  Js.is_object data = false → sanitizeData data = data.
Proof.
  unfold Js.is_object, sanitizeData. intros Hobj.
  destruct (Js.truthy data); simpl in *; [by rewrite Hobj | done].
Qed.

Lemma sanitizeData_object data :
  Js.is_object data = true →
  sanitizeData data =
  Js.Object (foldl redact_field (Js.spread data) sensitiveFields).
Proof.
  unfold Js.is_object, sanitizeData. intros [-> ->]%andb_true_iff. done.
Qed.

Lemma REDACTED_truthy : Js.truthy REDACTED = true.
Proof. reflexivity. Qed.



(** What [sanitizeData] does to each property of an object. *)
Lemma sanitizeData_lookup data :
  Js.is_object data = true →
  ∃ sanitized, sanitizeData data = Js.Object sanitized ∧
    ∀ k, sanitized !! k =
         if bool_decide (k ∈ sensitiveFields) &&
            Js.truthy (Js.get (Js.spread data) k)
         then Some REDACTED else Js.spread data !! k.
Proof.
  intros Hobj. eexists. split; [by apply sanitizeData_object|].
  intros k. apply redact_fields_lookup.
Qed.

(** C3 (as amended).  [sanitizeData] returns an input that is not an
    object unchanged; on an object it returns a copy in which every
    sensitive field that holds a truthy value holds the redaction marker,
    and every other property, a sensitive field with a falsy value
    included, is as in the input. *)
Theorem sanitizeData_redacts_truthy_fields (data : Js.Value) :
  (Js.is_object data = false → sanitizeData data = data) ∧
  (Js.is_object data = true →
   ∃ sanitized, sanitizeData data = Js.Object sanitized ∧
     ∀ k, sanitized !! k =
          if bool_decide (k ∈ sensitiveFields) &&
             Js.truthy (Js.get (Js.spread data) k)
          then Some REDACTED else Js.spread data !! k).
Proof.
  split; [apply sanitizeData_not_object | apply sanitizeData_lookup].
Qed.

Lemma sanitizeData_redacts_truthy_fields_witness :
  Js.is_object Example.old_state = true ∧
  ∃ sanitized, sanitizeData Example.old_state = Js.Object sanitized ∧
    ∀ k, sanitized !! k =
         if bool_decide (k ∈ sensitiveFields) &&
            Js.truthy (Js.get (Js.spread Example.old_state) k)
         then Some REDACTED else Js.spread Example.old_state !! k.
Proof.
  split; [reflexivity|].
  apply (proj2 (sanitizeData_redacts_truthy_fields Example.old_state)).
  reflexivity.
Defined.

(** C3, refuted as stated: [cvv] is a sensitive field and is present in
    [{ cvv: 0, name: 'Bob' }], yet [sanitizeData] returns the object as
    it is, with [cvv] still [0]. *)
Lemma sanitizeData_keeps_falsy_field :
  "cvv" ∈ sensitiveFields ∧
  Js.spread Example.zero_cvv !! "cvv" = Some (Js.Number 0%float) ∧
  sanitizeData Example.zero_cvv = Example.zero_cvv ∧
  Js.spread (sanitizeData Example.zero_cvv) !! "cvv" ≠ Some REDACTED.
Proof.
  split; [vm_compute; repeat constructor|].
  split; [vm_compute; reflexivity|]. split; [vm_compute; reflexivity|].
  vm_compute. discriminate.
Qed.

End Redaction.

(** ** The audit recorder *)

Section AuditRecorder.
Import Mongoose ActivityLog.
Context {ObjectId : Type} `{Countable ObjectId} `{!ObjectIdCast ObjectId}.



(** A rejected [createLog] leaves the collection as it was. *)
Lemma createLog_rejected now oid changedBy entityId entityType action
    oldData newData (logs : gmap ObjectId (Doc ObjectId)) e logs' :
  createLog now oid changedBy entityId entityType action oldData newData logs
    = (Rejected e, logs') →
  logs' = logs.
Proof.
  unfold createLog.
  destruct (castObjectId changedBy), (castObjectId entityId), (_ ++ _),
    (logs !! oid); by intros [= _ <-].
Qed.


(** C5.  [createLog] with an entity type outside the enumeration of the
    schema is rejected with a validation error on [entity_type] and
    leaves the collection unchanged; for a non-empty value the error is
    the one of the [enum] validator. *)
Theorem createLog_rejects_unknown_entity_type now oid changedBy entityId
    entityType action oldData newData (logs : gmap ObjectId (Doc ObjectId)) :
  entityType ∉ entity_types →
  ∃ errors,
    createLog now oid changedBy entityId entityType action oldData newData logs
      = (Rejected (ValidationError errors), logs) ∧
    "entity_type" ∈ error_path <$> errors ∧
    (entityType ≠ "" →
     ValidatorFailure "entity_type" "Entity type must be a valid collection name"
       ∈ errors).
Proof.
  intros Hnot.
  assert (Hv : ∃ message, validate_entity_type entityType =
                 [ValidatorFailure "entity_type" message] ∧
               (entityType ≠ "" →
                message = "Entity type must be a valid collection name")).
  { unfold validate_entity_type, required, enum.
    rewrite bool_decide_eq_false_2 by done.
    destruct (String.eqb_spec entityType ""); simpl.
    - eexists; split; [done|]. done.
    - eexists; split; [done|]. done. }
  destruct Hv as (message & Hv & Hmsg).
  exists (cast_failure "changed_by" (castObjectId changedBy) ++
          cast_failure "entity_id" (castObjectId entityId) ++
          validate_entity_type entityType ++ validate_action action).
  split; [|split].
  - unfold createLog. rewrite Hv.
    destruct (castObjectId changedBy), (castObjectId entityId); done.
  - rewrite Hv, !fmap_app. rewrite !elem_of_app. right; right; left.
    apply list_elem_of_here.
  - intros Hne. rewrite Hv, (Hmsg Hne), !elem_of_app. right; right; left.
    apply list_elem_of_here.
Qed.

End AuditRecorder.

Section AuditRecorderExamples.
Import Mongoose ActivityLog Example.



Lemma createLog_rejects_unknown_entity_type_witness :
  ("invoices" ∉ entity_types) ∧
  ∃ errors,
    createLog 1000 id1 alice bob "invoices" "create" Js.Undefined new_state ∅
      = (Rejected (ValidationError errors), ∅) ∧
    "entity_type" ∈ error_path <$> errors ∧
    ("invoices" ≠ "" →
     ValidatorFailure "entity_type" "Entity type must be a valid collection name"
       ∈ errors).
Proof.
  assert (Hnot : "invoices" ∉ entity_types)
    by (apply (bool_decide_unpack _); vm_compute; exact I).
  split; [exact Hnot|].
  exact (createLog_rejects_unknown_entity_type 1000 id1 alice bob "invoices"
           "create" Js.Undefined new_state ∅ Hnot).
Defined.

End AuditRecorderExamples.

(** ** Retention of audit records *)

Section Retention.
Import Mongoose ActivityLog.
Context {ObjectId : Type} `{Countable ObjectId}.

Lemma ttl_pass_lookup {Doc} (idx : TTLIndex Doc) now
    (coll : gmap ObjectId Doc) id :
  ttl_pass idx now coll !! id =
  match coll !! id with
  | Some doc => if expired idx now doc then None else Some doc
  | None => None
  end.
Proof.
  unfold ttl_pass. rewrite map_lookup_filter.
  destruct (coll !! id) as [doc|]; simpl; [|done].
  by destruct (expired idx now doc).
Qed.

Lemma expired_activity_log now (doc : Doc ObjectId) :
  expired ttl_index now doc = bool_decide (expiry doc ≤ now).
Proof. unfold expired, expiry; simpl. apply bool_decide_ext. lia. Qed.

Lemma retention_cons now times (logs : gmap ObjectId (Doc ObjectId)) :
  retention (now :: times) logs = retention times (ttl_pass ttl_index now logs).
Proof. reflexivity. Qed.

Lemma retention_absent times (logs : gmap ObjectId (Doc ObjectId)) id :
  logs !! id = None → retention times logs !! id = None.
Proof.
  revert logs. induction times as [|t times IH]; intros logs Hnone; [done|].
  rewrite retention_cons. apply IH. by rewrite ttl_pass_lookup, Hnone.
Qed.

(** C10.  The TTL index of the audit log is keyed on [created_at] with a
    horizon of 2 * 365 days.  However often and whenever the monitor
    runs, a record is kept as long as every pass was before its expiry,
    and it is gone, for good, once a pass has run at or after it. *)
Theorem activity_log_retention (logs : gmap ObjectId (Doc ObjectId)) id doc times :
  logs !! id = Some doc →
  ttl_key ttl_index doc = Some (created_at doc) ∧
  expireAfterSeconds (ttl_index (ObjectId := ObjectId)) = 2 * 365 * 24 * 60 * 60 ∧
  (Forall (fun now => now - created_at doc < 2 * 365 * 24 * 60 * 60 * 1000) times →
   retention times logs !! id = Some doc) ∧
  (Exists (fun now => 2 * 365 * 24 * 60 * 60 * 1000 ≤ now - created_at doc) times →
   retention times logs !! id = None).
Proof.
  intros Hdoc. split; [done|]. split; [done|]. split.
  - revert logs Hdoc. induction times as [|t times IH]; intros logs Hdoc Hall; [done|].
    apply Forall_cons in Hall as [Ht Hall]. rewrite retention_cons.
    apply IH; [|done].
    rewrite ttl_pass_lookup, Hdoc, expired_activity_log.
    rewrite bool_decide_eq_false_2; [done|]. unfold expiry. lia.
  - revert logs Hdoc. induction times as [|t times IH]; intros logs Hdoc Hex.
    + by apply Exists_nil in Hex.
    + rewrite retention_cons. apply Exists_cons in Hex as [Ht|Hex].
      * apply retention_absent.
        rewrite ttl_pass_lookup, Hdoc, expired_activity_log.
        rewrite bool_decide_eq_true_2; [done|]. unfold expiry. lia.
      * destruct (ttl_pass ttl_index t logs !! id) as [doc'|] eqn:Hpass.
        -- apply IH; [|done]. rewrite Hpass. f_equal.
           rewrite ttl_pass_lookup, Hdoc in Hpass.
           destruct (expired ttl_index t doc); congruence.
        -- by apply retention_absent.
Qed.

End Retention.

Section RetentionExamples.
Import Mongoose ActivityLog Example.

Lemma activity_log_retention_witness :
  ({[ id1 := update_log ]} : gmap string (Doc string)) !! id1 = Some update_log ∧
  retention [5000; 63072000999] {[ id1 := update_log ]} !! id1 = Some update_log ∧
  retention [5000; 63072001000] {[ id1 := update_log ]} !! id1 = None.
Proof.
  assert (Hdoc : ({[ id1 := update_log ]} : gmap string (Doc string)) !! id1
                 = Some update_log) by apply lookup_singleton_eq.
  split; [exact Hdoc|]. split.
  - apply (activity_log_retention _ _ _ [5000; 63072000999] Hdoc).
    repeat constructor; vm_compute; reflexivity.
  - apply (activity_log_retention _ _ _ [5000; 63072001000] Hdoc).
    apply Exists_cons_tl, Exists_cons_hd. vm_compute. discriminate.
Defined.

End RetentionExamples.

(** ** The dispatcher *)

Section Dispatcher.
Import Mongoose Notification.
Context {ObjectId : Type} `{Countable ObjectId} `{!ObjectIdCast ObjectId}.


(** A notification that [createNotification] resolves with is unread,
    has no [read_at], and is inserted under a fresh identifier. *)
Lemma createNotification_resolved now oid userId k title type triggeredBy
    entityId entityType (db : DB ObjectId) doc db' :
  createNotification now oid userId k title type triggeredBy entityId entityType db
    = (Resolved doc, db') →
  castObjectId userId = Some (user_id doc) ∧
  is_read doc = false ∧ read_at doc = None ∧
  notifications db !! oid = None ∧
  db' = with_notifications db (<[oid := doc]> (notifications db)).
Proof.
  unfold createNotification.
  destruct (NotificationType.findOne k (notification_types db)); [|done].
  destruct (castObjectId userId) as [user|]; simpl.
  2: { by destruct (cast_optional triggeredBy), (cast_optional entityId). }
  destruct (cast_optional triggeredBy) as [trigger|]; simpl.
  2: { by destruct (cast_optional entityId). }
  destruct (cast_optional entityId) as [entity|]; simpl; [|done].
  destruct (validate_fields _ _ _); [|done].
  destruct (notifications db !! oid) eqn:Hfree; [done|].
  by intros [= <- <-].
Qed.



End Dispatcher.

Section DispatcherExamples.
Import Mongoose Notification Example.


End DispatcherExamples.

(** ** The read-state tracker *)

Section ReadState.
Import Mongoose Notification.
Context {ObjectId : Type} `{Countable ObjectId} `{!ObjectIdCast ObjectId}.

Lemma set_read_state_same (this : Doc ObjectId) read at_ :
  is_read this = read → read_at this = at_ → set_read_state this read at_ = this.
Proof. destruct this; simpl. by intros <- <-. Qed.

Lemma with_notifications_same (db : DB ObjectId) :
  with_notifications db (notifications db) = db.
Proof. by destruct db. Qed.

(** [markAsRead] on a document as the store holds it: when the document
    validates, the stored document becomes read at [now]; otherwise the
    promise rejects and nothing is written. *)
Lemma markAsRead_loaded now (this : Doc ObjectId) (db : DB ObjectId) :
  notifications db !! _id this = Some this →
  markAsRead now this db =
  match validate_fields (entity_type this) (type this) (title this) with
  | [] => (Resolved (set_read_state this true (Some now)),
           with_notifications db
             (<[_id this := set_read_state this true (Some now)]> (notifications db)))
  | e :: errors => (Rejected (ValidationError (e :: errors)), db)
  end.
Proof.
  intros Hstored. unfold markAsRead, save, validate, validate_read_at. simpl.
  destruct (validate_fields _ _ _) as [|e errors];
    [|by simpl; rewrite app_nil_r].
  simpl. unfold pre_save. simpl.
  replace (if negb (is_read this) then set_read_state this true (Some now)
           else set_read_state this true (Some now))
    with (set_read_state this true (Some now)) by by destruct (is_read this).
  simpl. rewrite (bool_decide_eq_true_2 (Some now = Some now)) by done.
  rewrite orb_false_r, Hstored.
  destruct (is_read this) eqn:Hread; simpl.
  - case_bool_decide as Hat; simpl.
    + rewrite (set_read_state_same this true (Some now)) by done.
      by rewrite insert_id, with_notifications_same.
    + done.
  - case_bool_decide as Hat; simpl; [by rewrite Hat | done].
Qed.

Lemma markAsUnread_loaded now (this : Doc ObjectId) (db : DB ObjectId) :
  notifications db !! _id this = Some this →
  markAsUnread now this db =
  match validate_fields (entity_type this) (type this) (title this) with
  | [] => (Resolved (set_read_state this false None),
           with_notifications db
             (<[_id this := set_read_state this false None]> (notifications db)))
  | e :: errors => (Rejected (ValidationError (e :: errors)), db)
  end.
Proof.
  intros Hstored. unfold markAsUnread, save, validate, validate_read_at. simpl.
  destruct (validate_fields _ _ _) as [|e errors];
    [|by simpl; rewrite app_nil_r].
  simpl. unfold pre_save. simpl.
  change (set_read_state (set_read_state this false None) false None)
    with (set_read_state this false None).
  replace (if is_read this then set_read_state this false None
           else set_read_state this false None)
    with (set_read_state this false None) by by destruct (is_read this).
  simpl. rewrite orb_false_r, Hstored.
  destruct (is_read this) eqn:Hread; simpl.
  - case_bool_decide as Hat; simpl; [done|].
    destruct (read_at this); [destruct Hat; eauto | done].
  - case_bool_decide as Hat; simpl; [done|].
    rewrite (set_read_state_same this false None).
    + by rewrite insert_id, with_notifications_same.
    + done.
    + destruct (read_at this); [|done]. destruct Hat; eauto.
Qed.








(** C7 (as amended).  Two calls of [markAsRead] on a stored, valid
    notification both resolve and leave it read, with [read_at] at the
    time of the second call: the store is the one a single call at that
    time gives.  When both calls read the same clock value, the second
    call changes nothing. *)
Theorem markAsRead_again now1 now2 (this : Doc ObjectId) (db : DB ObjectId) :
  notifications db !! _id this = Some this →
  fields_valid this →
  ∃ once db1 db2,
    markAsRead now1 this db = (Resolved once, db1) ∧
    notifications db1 !! _id this = Some once ∧
    markAsRead now2 once db1
      = (Resolved (set_read_state this true (Some now2)), db2) ∧
    notifications db2 !! _id this = Some (set_read_state this true (Some now2)) ∧
    db2 = (markAsRead now2 this db).2 ∧
    (now2 = now1 → db2 = db1).
Proof.
  intros Hstored Hvalid. unfold fields_valid in Hvalid.
  set (once := set_read_state this true (Some now1)).
  set (db1 := with_notifications db (<[_id this := once]> (notifications db))).
  assert (Hstored1 : notifications db1 !! _id once = Some once)
    by apply lookup_insert_eq.
  exists once, db1, (markAsRead now2 once db1).2.
  rewrite (markAsRead_loaded now2 once db1 Hstored1).
  rewrite !(markAsRead_loaded _ this db Hstored). simpl. rewrite Hvalid. simpl.
  split; [done|]. split; [done|]. split; [done|].
  unfold db1, with_notifications; simpl. rewrite insert_insert_eq.
  split; [apply lookup_insert_eq|]. split; [done|]. by intros ->.
Qed.


(** The unread notifications of a user, counted. *)
Lemma getUnreadCount_cast userId user (db : DB ObjectId) :
  castObjectId userId = Some user →
  getUnreadCount userId db =
  Resolved (size (filter (fun kv => unread_of user kv.2 = true) (notifications db))).
Proof. unfold getUnreadCount. by intros ->. Qed.

(** C9.  [markAllAsRead] marks read, at [now], every notification of
    the user that is unread and leaves every other notification as it
    is; it resolves with the number of notifications that were unread.
    Right after it the unread count of the user is 0, and it is 1 after
    a notification is then dispatched to that user. *)
Theorem markAllAsRead_clears_unread now userId user (db : DB ObjectId) :
  castObjectId userId = Some user →
  ∃ n db',
    getUnreadCount userId db = Resolved n ∧
    markAllAsRead now userId db = (Resolved n, db') ∧
    notification_types db' = notification_types db ∧
    (∀ id, notifications db' !! id =
           (fun doc => if bool_decide (user_id doc = user) && negb (is_read doc)
                       then set_read_state doc true (Some now) else doc)
           <$> notifications db !! id) ∧
    (∀ id doc, notifications db !! id = Some doc → user_id doc ≠ user →
               notifications db' !! id = Some doc) ∧
    (∀ id doc, notifications db' !! id = Some doc → user_id doc = user →
               is_read doc = true) ∧
    getUnreadCount userId db' = Resolved 0%nat ∧
    (∀ now' oid k title type triggeredBy entityId entityType doc db'',
       createNotification now' oid userId k title type triggeredBy entityId
         entityType db' = (Resolved doc, db'') →
       getUnreadCount userId db'' = Resolved 1%nat).
Proof.
  intros Hcast. rewrite (getUnreadCount_cast _ _ _ Hcast).
  unfold markAllAsRead. rewrite Hcast. eexists _, _.
  split; [reflexivity|]. split; [reflexivity|]. simpl.
  set (mark := fun doc : Doc ObjectId =>
         if unread_of user doc then set_read_state doc true (Some now) else doc).
  assert (Hnone : filter (fun kv : ObjectId * Doc ObjectId =>
                            unread_of user kv.2 = true)
                         (mark <$> notifications db) = ∅).
  { apply map_empty_filter. intros id doc'. rewrite lookup_fmap.
    destruct (notifications db !! id) as [doc|]; [|done].
    intros [= <-]. simpl. unfold mark.
    destruct (unread_of user doc) eqn:Hun; [|by rewrite Hun].
    unfold unread_of; simpl. by rewrite andb_false_r. }
  split; [done|]. split; [intros id; by rewrite lookup_fmap|].
  split; [|split; [|split]].
  - intros id doc Hdoc Hother. rewrite lookup_fmap, Hdoc. simpl.
    unfold mark, unread_of. by rewrite bool_decide_eq_false_2.
  - intros id doc'. rewrite lookup_fmap.
    destruct (notifications db !! id) as [doc|]; [|done].
    intros [= <-]. unfold mark, unread_of.
    destruct (bool_decide (user_id doc = user)) eqn:Hu; simpl.
    + destruct (is_read doc) eqn:Hr; simpl; done.
    + intros Huser. by rewrite bool_decide_eq_true_2 in Hu.
  - rewrite (getUnreadCount_cast _ _ _ Hcast). simpl. by rewrite Hnone.
  - intros now' oid k title type triggeredBy entityId entityType doc db'' Hrun.
    apply createNotification_resolved in Hrun as (Huser & Hread & _ & Hfree & ->).
    rewrite (getUnreadCount_cast _ _ _ Hcast). simpl in *.
    rewrite map_filter_insert_True.
    + rewrite Hnone. by rewrite map_size_insert_None, map_size_empty.
    + simpl. unfold unread_of. rewrite Hread, bool_decide_eq_true_2; [done|].
      congruence.
Qed.

End ReadState.

(** ** The template renderer *)

Section Renderer.
Import NotificationType.
Local Arguments append !_ _ / : simpl nomatch.

Lemma append_assoc (s1 s2 s3 : string) : (s1 +:+ s2) +:+ s3 = s1 +:+ (s2 +:+ s3).
Proof. induction s1 as [|c s1 IH]; simpl; [done | by f_equal]. Qed.

Lemma append_empty_r (s : string) : s +:+ "" = s.
Proof. induction s as [|c s IH]; simpl; [done | by f_equal]. Qed.

Lemma length_append (s1 s2 : string) :
  String.length (s1 +:+ s2) = (String.length s1 + String.length s2)%nat.
Proof. induction s1 as [|c s1 IH]; simpl; [done | by f_equal]. Qed.

Lemma strip_prefix_cons a p b s :
  strip_prefix (String a p) (String b s)
  = if Ascii.eqb a b then strip_prefix p s else None.
Proof. reflexivity. Qed.

Lemma strip_prefix_app p s : strip_prefix p (p +:+ s) = Some s.
Proof.
  induction p as [|c p IH]; simpl; [by destruct s|].
  by rewrite Ascii.eqb_refl.
Qed.

Lemma strip_prefix_Some p s rest : strip_prefix p s = Some rest → s = p +:+ rest.
Proof.
  revert s. induction p as [|c p IH]; intros s; simpl.
  - by destruct s; intros [= <-].
  - destruct s as [|d s]; [done|].
    destruct (Ascii.eqb_spec c d) as [->|]; [|done].
    intros Hs. by rewrite (IH s Hs).
Qed.

Lemma span_spaces_app s : (Js.span_spaces s).1 +:+ (Js.span_spaces s).2 = s.
Proof.
  induction s as [|c s IH]; simpl; [done|].
  destruct (Js.is_space c); [|done].
  destruct (Js.span_spaces s) as [sp r]; simpl in *. by rewrite IH.
Qed.

(** A match is a prefix of the subject, at least four characters long. *)
Lemma match_placeholder_Some key s matched after :
  match_placeholder key s = Some (matched, after) →
  s = matched +:+ after ∧ (4 ≤ String.length matched)%nat.
Proof.
  unfold match_placeholder.
  destruct (strip_prefix "{{" s) as [s1|] eqn:H1; [|done].
  pose proof (span_spaces_app s1) as Hsp1.
  destruct (Js.span_spaces s1) as [sp1 s2]. cbn [fst snd] in Hsp1.
  destruct (strip_prefix key s2) as [s3|] eqn:H2; [|done].
  pose proof (span_spaces_app s3) as Hsp2.
  destruct (Js.span_spaces s3) as [sp2 s4]. cbn [fst snd] in Hsp2.
  destruct (strip_prefix "}}" s4) as [s5|] eqn:H3; [|done].
  intros [= <- <-].
  apply strip_prefix_Some in H1, H2, H3. subst. split.
  - simpl. by rewrite !append_assoc.
  - simpl. rewrite !length_append. simpl. lia.
Qed.

(** Fuel beyond the length of the subject is never used. *)
Lemma replace_from_fuel fuel1 fuel2 key replacement before s :
  (String.length s < fuel1)%nat → (String.length s < fuel2)%nat →
  replace_from fuel1 key replacement before s
  = replace_from fuel2 key replacement before s.
Proof.
  revert fuel2 before s.
  induction fuel1 as [|fuel1 IH]; intros fuel2 before s H1 H2; [lia|].
  destruct fuel2 as [|fuel2]; [lia|]. simpl.
  destruct (match_placeholder key s) as [[matched after]|] eqn:Hm.
  - apply match_placeholder_Some in Hm as [-> Hlen].
    rewrite length_append in H1, H2. f_equal. apply IH; lia.
  - destruct s as [|c rest]; [done|]. simpl in *. f_equal. apply IH; lia.
Qed.

(** The replacement, step by step. *)
Lemma replace_at_step key replacement before s :
  replace_at key replacement before s =
  match match_placeholder key s with
  | Some (matched, after) =>
      getSubstitution matched before after replacement +:+
      replace_at key replacement (before +:+ matched) after
  | None =>
      match s with
      | EmptyString => EmptyString
      | String c rest =>
          String c (replace_at key replacement (before +:+ String c EmptyString) rest)
      end
  end.
Proof.
  unfold replace_at at 1. simpl.
  destruct (match_placeholder key s) as [[matched after]|] eqn:Hm.
  - apply match_placeholder_Some in Hm as [-> Hlen]. f_equal.
    apply replace_from_fuel; rewrite ?length_append; lia.
  - by destruct s as [|c rest].
Qed.

Lemma or_empty_id value : or_empty value = value.
Proof. unfold or_empty. by destruct (String.eqb_spec value "") as [->|]. Qed.

Lemma free_of_cons c d s :
  free_of c (String d s) = negb (Ascii.eqb d c) && free_of c s.
Proof. reflexivity. Qed.

Lemma free_of_app c s t : free_of c (s +:+ t) = free_of c s && free_of c t.
Proof.
  induction s as [|d s IH]; [done|].
  simpl append. by rewrite !free_of_cons, IH, andb_assoc.
Qed.

(** Without a dollar sign the replacement text is taken literally. *)
Lemma getSubstitution_literal matched before after replacement :
  free_of "$" replacement = true →
  getSubstitution matched before after replacement = replacement.
Proof.
  induction replacement as [|c tail IH]; [done|].
  rewrite free_of_cons. intros [Hc Htail]%andb_true_iff. simpl.
  apply negb_true_iff in Hc. rewrite Hc. f_equal. by apply IH.
Qed.

(** No match starts at a character other than an opening brace. *)
Lemma match_placeholder_other key c s :
  Ascii.eqb c "{" = false → match_placeholder key (String c s) = None.
Proof.
  intros Hc. unfold match_placeholder.
  rewrite strip_prefix_cons, Ascii.eqb_sym, Hc. done.
Qed.

(** Text without an opening brace passes through. *)
Lemma replace_at_text key replacement before text s :
  free_of "{" text = true →
  replace_at key replacement before (text +:+ s)
  = text +:+ replace_at key replacement (before +:+ text) s.
Proof.
  revert before. induction text as [|c text IH]; intros before.
  - intros _. by rewrite append_empty_r.
  - rewrite free_of_cons. intros [Hc Htext]%andb_true_iff.
    apply negb_true_iff in Hc. simpl append.
    rewrite replace_at_step, match_placeholder_other by done.
    f_equal. rewrite IH by done. by rewrite append_assoc.
Qed.

Lemma word_char_not_space c : is_word_char c = true → Js.is_space c = false.
Proof.
  destruct c as [[] [] [] [] [] [] [] []]; vm_compute; congruence.
Qed.

Lemma word_char_not_brace c :
  is_word_char c = true → Ascii.eqb c "{" = false ∧ Ascii.eqb c "}" = false.
Proof.
  destruct c as [[] [] [] [] [] [] [] []]; vm_compute; (split || intros); congruence.
Qed.

Lemma plain_name_cons c s :
  plain_name (String c s) = is_word_char c && plain_name s.
Proof. reflexivity. Qed.

Lemma plain_name_free name : plain_name name = true → free_of "{" name = true.
Proof.
  induction name as [|c name IH]; [done|].
  rewrite plain_name_cons, free_of_cons.
  intros [Hc Hname]%andb_true_iff. apply word_char_not_brace in Hc as [Hc _].
  by rewrite Hc, IH.
Qed.

(** After a plain name and the closing braces there is no white space
    to skip. *)
Lemma span_spaces_name name rest :
  plain_name name = true →
  Js.span_spaces (name +:+ "}}" +:+ rest) = ("", name +:+ "}}" +:+ rest).
Proof.
  destruct name as [|c name]; [done|].
  rewrite plain_name_cons. intros [Hc _]%andb_true_iff.
  apply word_char_not_space in Hc. simpl. by rewrite Hc.
Qed.

(** Stripping a plain key off a plain name and its closing braces: the
    name is the key, or what is left starts with a word character. *)
Lemma strip_prefix_name key name rest x :
  plain_name key = true → plain_name name = true →
  strip_prefix key (name +:+ "}}" +:+ rest) = Some x →
  (name = key ∧ x = "}}" +:+ rest) ∨
  (name ≠ key ∧ ∃ c tail, x = String c tail ∧ is_word_char c = true).
Proof.
  revert name. induction key as [|a key IH]; intros name Hkey Hname.
  - destruct name as [|b name]; simpl.
    + intros [= <-]. by left.
    + intros [= <-]. right. split; [done|].
      rewrite plain_name_cons in Hname.
      apply andb_true_iff in Hname as [Hb _]. eauto.
  - rewrite plain_name_cons in Hkey. apply andb_true_iff in Hkey as [Ha Hkey].
    destruct name as [|b name]; simpl append; rewrite strip_prefix_cons.
    + destruct (word_char_not_brace a Ha) as [_ Hbrace]. by rewrite Hbrace.
    + rewrite plain_name_cons in Hname.
      apply andb_true_iff in Hname as [Hb Hname].
      destruct (Ascii.eqb_spec a b) as [->|Hab]; [|done].
      intros Hx. destruct (IH name Hkey Hname Hx) as [[-> ->]|[Hne Htail]].
      * by left.
      * right. split; [congruence | done].
Qed.

Lemma match_placeholder_same key rest :
  plain_name key = true →
  match_placeholder key ("{{" +:+ key +:+ "}}" +:+ rest)
  = Some ("{{" +:+ key +:+ "}}", rest).
Proof.
  intros Hkey. unfold match_placeholder.
  rewrite strip_prefix_app, span_spaces_name by done. cbv beta iota.
  rewrite strip_prefix_app.
  change (Js.span_spaces ("}}" +:+ rest)) with ("", "}}" +:+ rest). cbv beta iota.
  by rewrite strip_prefix_app.
Qed.

Lemma match_placeholder_differs key name rest :
  plain_name key = true → plain_name name = true → name ≠ key →
  match_placeholder key ("{{" +:+ name +:+ "}}" +:+ rest) = None.
Proof.
  intros Hkey Hname Hne. unfold match_placeholder.
  rewrite strip_prefix_app, span_spaces_name by done. cbv beta iota.
  destruct (strip_prefix key _) as [x|] eqn:Hx; [|done].
  apply strip_prefix_name in Hx as [[? _]|[_ (c & tail & -> & Hc)]]; [done|..|done|done].
  destruct (word_char_not_brace c Hc) as [_ Hbrace].
  simpl Js.span_spaces. rewrite (word_char_not_space c Hc).
  rewrite strip_prefix_cons, Ascii.eqb_sym, Hbrace. done.
Qed.

(** A placeholder of another name passes through. *)
Lemma replace_at_other key replacement before name rest :
  plain_name key = true → plain_name name = true → name ≠ key →
  ∃ before',
    replace_at key replacement before ("{{" +:+ name +:+ "}}" +:+ rest)
    = "{{" +:+ name +:+ "}}" +:+ replace_at key replacement before' rest.
Proof.
  intros Hkey Hname Hne.
  rewrite replace_at_step, match_placeholder_differs by done.
  change ("{{" +:+ name +:+ "}}" +:+ rest)
    with (String "{" (String "{" (name +:+ "}}" +:+ rest))).
  cbv beta iota.
  assert (Hsecond : match_placeholder key (String "{" (name +:+ "}}" +:+ rest)) = None).
  { unfold match_placeholder. rewrite strip_prefix_cons.
    change (Ascii.eqb "{" "{") with true. cbn iota.
    destruct name as [|c name]; [done|]. simpl append. rewrite strip_prefix_cons.
    rewrite plain_name_cons in Hname. apply andb_true_iff in Hname as [Hc _].
    destruct (word_char_not_brace c Hc) as [Hbrace _].
    by rewrite Ascii.eqb_sym, Hbrace. }
  rewrite replace_at_step, Hsecond. cbv beta iota.
  rewrite <- (append_assoc name "}}" rest), replace_at_text.
  - eexists. by rewrite (append_assoc name "}}" _).
  - rewrite free_of_app, plain_name_free by done. done.
Qed.

Lemma unparse_cons seg segs : unparse (seg :: segs) = segment_text seg +:+ unparse segs.
Proof. reflexivity. Qed.

(** One pass of [replace] fills the placeholders of its key. *)
Lemma replace_at_unparse key replacement segs :
  plain_name key = true → free_of "$" replacement = true →
  forallb plain_segment segs = true →
  ∀ before,
    replace_at key replacement before (unparse segs)
    = unparse (fill key replacement <$> segs).
Proof.
  intros Hkey Hrep. induction segs as [|seg segs IH]; intros Hsegs before.
  - by rewrite replace_at_step.
  - cbn [forallb] in Hsegs. apply andb_true_iff in Hsegs as [Hseg Hsegs].
    rewrite fmap_cons, !unparse_cons. destruct seg as [text|name]; simpl in Hseg.
    + rewrite replace_at_text by done. simpl. f_equal. by apply IH.
    + cbn [segment_text fill]. rewrite append_assoc, (append_assoc name).
      destruct (String.eqb_spec key name) as [<-|Hne].
      * rewrite replace_at_step, match_placeholder_same by done.
        rewrite getSubstitution_literal by done. simpl. f_equal. by apply IH.
      * destruct (replace_at_other key replacement before name (unparse segs))
          as [before' ->]; [done..|congruence|].
        cbn [segment_text]. rewrite append_assoc, (append_assoc name).
        do 2 f_equal. f_equal. by apply IH.
Qed.

Lemma rendered_cons variables seg segs :
  rendered variables (seg :: segs)
  = render_segment variables seg +:+ rendered variables segs.
Proof. reflexivity. Qed.

Lemma rendered_nil segs : rendered [] segs = unparse segs.
Proof.
  induction segs as [|seg segs IH]; [done|].
  rewrite rendered_cons, unparse_cons, IH. by destruct seg.
Qed.

Lemma rendered_fill k v variables segs :
  rendered variables (fill k v <$> segs) = rendered ((k, v) :: variables) segs.
Proof.
  induction segs as [|seg segs IH]; [done|].
  rewrite fmap_cons, !rendered_cons, IH. f_equal.
  destruct seg as [text|name]; [done|]. simpl.
  by destruct (String.eqb k name).
Qed.

Lemma plain_fill k v segs :
  free_of "{" v = true → forallb plain_segment segs = true →
  forallb plain_segment (fill k v <$> segs) = true.
Proof.
  intros Hv. induction segs as [|seg segs IH]; [done|]. cbn [forallb fmap list_fmap].
  intros [Hseg Hsegs]%andb_true_iff. rewrite IH by done.
  destruct seg as [text|name]; simpl in *; [by rewrite Hseg|].
  destruct (String.eqb k name); simpl; by rewrite ?Hv, ?Hseg.
Qed.

(** All the passes of [renderTemplate]. *)
Lemma render_passes variables segs :
  forallb plain_binding variables = true →
  forallb plain_segment segs = true →
  foldl (fun rendered kv => replace_all kv.1 (or_empty kv.2) rendered)
        (unparse segs) variables
  = rendered variables segs.
Proof.
  revert segs. induction variables as [|[k v] variables IH]; intros segs Hvars Hsegs.
  - symmetry. apply rendered_nil.
  - change (plain_binding (k, v) && forallb plain_binding variables = true) in Hvars.
    apply andb_true_iff in Hvars as [Hkv Hvars].
    unfold plain_binding in Hkv. cbn [fst snd] in Hkv.
    apply andb_true_iff in Hkv as [Hkv Hdollar].
    apply andb_true_iff in Hkv as [Hk Hbrace].
    cbn [foldl fst snd]. unfold replace_all. rewrite or_empty_id.
    rewrite replace_at_unparse by done.
    rewrite IH by (done || by apply plain_fill). apply rendered_fill.
Qed.

(** With a value for every placeholder, what is left is the rendering
    of the specification. *)
Lemma rendered_spec variables segs :
  (∀ name, Placeholder name ∈ segs → is_Some (lookup_value name variables)) →
  rendered variables segs = render_spec variables segs.
Proof.
  induction segs as [|seg segs IH]; intros Hall; [done|].
  rewrite rendered_cons.
  change (render_spec variables (seg :: segs))
    with (render_segment_spec variables seg +:+ render_spec variables segs).
  rewrite IH by (intros name Hin; by apply Hall, list_elem_of_further). f_equal.
  destruct seg as [text|name]; [done|]. simpl.
  destruct (Hall name) as [v ->]; [apply list_elem_of_here | done].
Qed.

(** C2 (as amended).  For a template made of text without an opening
    brace and of [{{name}}] placeholders with plain names, and for
    variables with plain keys and values without an opening brace or a
    dollar sign: [renderTemplate] returns the template with every
    placeholder whose name is a key replaced by the value of that key,
    and every other placeholder left as written.  When every placeholder
    has a value, this is the rendering of the specification. *)
Theorem renderTemplate_fills_listed_placeholders {ObjectId}
    (this : Doc ObjectId) segs variables :
  template this = unparse segs →
  forallb plain_segment segs = true →
  forallb plain_binding variables = true →
  renderTemplate this variables = rendered variables segs ∧
  ((∀ name, Placeholder name ∈ segs → is_Some (lookup_value name variables)) →
   renderTemplate this variables = render_spec variables segs).
Proof.
  intros Htemplate Hsegs Hvars.
  assert (Hrender : renderTemplate this variables = rendered variables segs).
  { unfold renderTemplate. rewrite Htemplate. by apply render_passes. }
  split; [done|]. intros Hall. rewrite Hrender. by apply rendered_spec.
Qed.

End Renderer.

Section ReadStateExamples.
Import Mongoose Notification Example.

Lemma markAsRead_again_witness :
  notifications inbox !! id2 = Some (note id2 alice false None) ∧
  fields_valid (note id2 alice false None) ∧
  ∃ once db1 db2,
    markAsRead 1000 (note id2 alice false None) inbox = (Resolved once, db1) ∧
    markAsRead 2000 once db1 = (Resolved (note id2 alice true (Some 2000)), db2) ∧
    db2 = (markAsRead 2000 (note id2 alice false None) inbox).2.
Proof.
  assert (Hstored : notifications inbox !! _id (note id2 alice false None)
                    = Some (note id2 alice false None)) by (vm_compute; reflexivity).
  assert (Hvalid : fields_valid (note id2 alice false None))
    by (vm_compute; reflexivity).
  split; [exact Hstored|]. split; [exact Hvalid|].
  destruct (markAsRead_again 1000 2000 _ inbox Hstored Hvalid)
    as (once & db1 & db2 & H1 & _ & H2 & _ & H3 & _).
  exists once, db1, db2. split; [exact H1|]. split; [exact H2 | exact H3].
Defined.

(** C7, refuted as stated: marking the unread notification of Alice as
    read at time 1000 and again at time 2000 leaves [read_at] at 2000,
    not at the 1000 a single call gives; the second call is no no-op. *)
Lemma markAsRead_again_moves_read_at :
  markAsRead 1000 (note id2 alice false None) inbox
  = (Resolved (note id2 alice true (Some 1000)),
     with_notifications inbox
       (<[id2 := note id2 alice true (Some 1000)]> (notifications inbox))) ∧
  markAsRead 2000 (note id2 alice true (Some 1000))
    (with_notifications inbox
       (<[id2 := note id2 alice true (Some 1000)]> (notifications inbox)))
  = (Resolved (note id2 alice true (Some 2000)),
     with_notifications inbox
       (<[id2 := note id2 alice true (Some 2000)]> (notifications inbox))) ∧
  with_notifications inbox
    (<[id2 := note id2 alice true (Some 2000)]> (notifications inbox))
  ≠ with_notifications inbox
      (<[id2 := note id2 alice true (Some 1000)]> (notifications inbox)).
Proof.
  split; [vm_compute; reflexivity|]. split; [vm_compute; reflexivity|].
  intros Heq. apply (f_equal (fun db => read_at <$> notifications db !! id2)) in Heq.
  vm_compute in Heq. discriminate.
Qed.


Lemma markAllAsRead_clears_unread_witness :
  castObjectId alice = Some alice ∧
  getUnreadCount alice (markAllAsRead 5000 alice inbox).2 = Resolved 0%nat ∧
  ∃ doc db'',
    createNotification 6000 id5 alice "task_assigned" "A new task" None None None
      None (markAllAsRead 5000 alice inbox).2 = (Resolved doc, db'') ∧
    getUnreadCount alice db'' = Resolved 1%nat.
Proof.
  assert (Hcast : castObjectId alice = Some alice) by (vm_compute; reflexivity).
  assert (Hresolves : ∃ doc,
    (createNotification 6000 id5 alice "task_assigned" "A new task" None None None
       None (markAllAsRead 5000 alice inbox).2).1 = Resolved doc)
    by (vm_compute; eexists; reflexivity).
  split; [exact Hcast|].
  destruct (markAllAsRead_clears_unread 5000 alice alice inbox Hcast)
    as (n & db' & _ & Hrun & _ & _ & _ & _ & Hzero & Hone).
  rewrite Hrun in Hresolves |- *. cbn [snd] in Hresolves |- *.
  split; [exact Hzero|].
  destruct (createNotification 6000 id5 alice "task_assigned" "A new task" None
              None None None db') as [r db''] eqn:Hdispatch.
  cbn [fst] in Hresolves. destruct Hresolves as [doc ->].
  exists doc, db''. split; [reflexivity|].
  exact (Hone _ _ _ _ _ _ _ _ _ _ Hdispatch).
Defined.

End ReadStateExamples.

Section RendererExamples.
Import NotificationType Example.

Lemma renderTemplate_fills_listed_placeholders_witness :
  template task_assigned = unparse task_assigned_segments ∧
  forallb plain_segment task_assigned_segments = true ∧
  forallb plain_binding [("task_title", "Fix bug"); ("project_name", "Alpha")]
  = true ∧
  renderTemplate task_assigned [("task_title", "Fix bug"); ("project_name", "Alpha")]
  = "You have been assigned a new task: " +:+ quote +:+ "Fix bug" +:+ quote +:+
    " in project " +:+ quote +:+ "Alpha" +:+ quote +:+ ".".
Proof.
  assert (Htemplate : template task_assigned = unparse task_assigned_segments)
    by (vm_compute; reflexivity).
  assert (Hsegs : forallb plain_segment task_assigned_segments = true)
    by (vm_compute; reflexivity).
  assert (Hvars : forallb plain_binding
                    [("task_title", "Fix bug"); ("project_name", "Alpha")] = true)
    by (vm_compute; reflexivity).
  split; [exact Htemplate|]. split; [exact Hsegs|]. split; [exact Hvars|].
  destruct (renderTemplate_fills_listed_placeholders task_assigned
              task_assigned_segments _ Htemplate Hsegs Hvars) as [-> _].
  vm_compute. reflexivity.
Defined.

(** C2, refuted as stated: rendering the template of [task_assigned]
    with a value for [task_title] only leaves the marker
    [{{project_name}}] in the output, where the specification has the
    empty string. *)
Lemma renderTemplate_leaves_unlisted_placeholder :
  lookup_value "project_name" [("task_title", "Fix bug")] = None ∧
  renderTemplate task_assigned [("task_title", "Fix bug")]
  = "You have been assigned a new task: " +:+ quote +:+ "Fix bug" +:+ quote +:+
    " in project " +:+ quote +:+ "{{project_name}}" +:+ quote +:+ "." ∧
  render_spec [("task_title", "Fix bug")] task_assigned_segments
  = "You have been assigned a new task: " +:+ quote +:+ "Fix bug" +:+ quote +:+
    " in project " +:+ quote +:+ quote +:+ "." ∧
  renderTemplate task_assigned [("task_title", "Fix bug")]
  ≠ render_spec [("task_title", "Fix bug")] task_assigned_segments.
Proof.
  split; [vm_compute; reflexivity|]. split; [vm_compute; reflexivity|]. split; [vm_compute; reflexivity|].
  vm_compute. discriminate.
Qed.

(** Why the values are kept free of dollar signs: [$&] in a value
    stands for the text matched, so the marker comes back. *)
Lemma renderTemplate_dollar_pattern :
  renderTemplate task_assigned [("task_title", "$&"); ("project_name", "$$")]
  = "You have been assigned a new task: " +:+ quote +:+ "{{task_title}}" +:+ quote +:+
    " in project " +:+ quote +:+ "$" +:+ quote +:+ ".".
Proof. vm_compute. reflexivity. Qed.

End RendererExamples.

(** * Further properties *)

(** ** Redaction, once more *)

Section RedactionMore.
Import Mongoose ActivityLog.

Lemma truthy_get_Some (o : gmap string Js.Value) k :
  Js.truthy (Js.get o k) = true → is_Some (o !! k).
Proof. unfold Js.get. destruct (o !! k); [eauto | done]. Qed.

(** X1.  [sanitizeData] is idempotent: sanitizing a sanitized value
    gives it back. *)
Theorem sanitizeData_idempotent (data : Js.Value) :
  sanitizeData (sanitizeData data) = sanitizeData data.
Proof.
  destruct (Js.is_object data) eqn:Hobj.
  - destruct (sanitizeData_lookup data Hobj) as (once & -> & Honce).
    destruct (sanitizeData_lookup (Js.Object once) eq_refl) as (twice & -> & Htwice).
    f_equal. apply map_eq. intros k. rewrite Htwice. cbn [Js.spread].
    destruct (bool_decide (k ∈ sensitiveFields)) eqn:Hk; cbn [andb]; [|done].
    unfold Js.get at 1. rewrite !Honce, Hk. cbn [andb].
    destruct (Js.truthy (Js.get (Js.spread data) k)) eqn:Ht; [done|].
    unfold Js.get in Ht. by rewrite Ht.
  - by rewrite !(sanitizeData_not_object data Hobj).
Qed.

(** X2.  [sanitizeData] neither adds nor removes a property: the
    result has the property names of the input, so a sensitive field
    that is absent stays absent. *)
Theorem sanitizeData_keeps_names (data : Js.Value) :
  dom (Js.spread (sanitizeData data)) = dom (Js.spread data).
Proof.
  destruct (Js.is_object data) eqn:Hobj.
  - destruct (sanitizeData_lookup data Hobj) as (sanitized & -> & Hl).
    cbn [Js.spread]. apply set_eq. intros k. rewrite !elem_of_dom, Hl.
    destruct (bool_decide (k ∈ sensitiveFields)); cbn [andb]; [|done].
    destruct (Js.truthy (Js.get (Js.spread data) k)) eqn:Ht; [|done].
    split; [intros _; by apply truthy_get_Some | eauto].
  - by rewrite (sanitizeData_not_object data Hobj).
Qed.

End RedactionMore.

(** ** The audit recorder, once more *)

Section AuditRecorderMore.
Import Mongoose ActivityLog.
Context {ObjectId : Type} `{Countable ObjectId} `{!ObjectIdCast ObjectId}.

(** [required] then [enum] pass exactly on the values of the enumeration,
    none of which is empty. *)
Lemma required_enum_nil path values message1 message2 value :
  "" ∉ values →
  first_failure (required path message1 value ++ enum path values message2 value) = []
  ↔ value ∈ values.
Proof.
  intros Hempty. unfold required, enum.
  destruct (String.eqb_spec value "") as [->|Hne]; [by split|].
  case_bool_decide; by split.
Qed.

Lemma validate_entity_type_nil entityType :
  validate_entity_type entityType = [] ↔ entityType ∈ entity_types.
Proof.
  apply required_enum_nil. apply (bool_decide_unpack _). vm_compute. exact I.
Qed.

Lemma validate_action_nil action :
  validate_action action = [] ↔ action ∈ actions.
Proof.
  apply required_enum_nil. apply (bool_decide_unpack _). vm_compute. exact I.
Qed.

(** X3.  [createLog] resolves exactly when both identifiers cast, the
    entity type and the action are in their enumerations and the
    identifier generated for the record is free. *)
Theorem createLog_resolves_iff now oid changedBy entityId entityType action
    oldData newData (logs : gmap ObjectId (Doc ObjectId)) :
  (∃ doc logs',
     createLog now oid changedBy entityId entityType action oldData newData logs
     = (Resolved doc, logs'))
  ↔ is_Some (castObjectId changedBy) ∧ is_Some (castObjectId entityId) ∧
    entityType ∈ entity_types ∧ action ∈ actions ∧ logs !! oid = None.
Proof.
  rewrite <- validate_entity_type_nil, <- validate_action_nil. unfold createLog.
  destruct (castObjectId changedBy) as [changed|]; simpl.
  2: { destruct (castObjectId entityId); split;
         (by intros (? & ? & ?)) || (by intros ([? ?] & _)). }
  destruct (castObjectId entityId) as [entity|]; simpl.
  2: { split; [by intros (? & ? & ?) | by intros (_ & [? ?] & _)]. }
  destruct (validate_entity_type entityType) as [|e1 es1]; simpl.
  2: { split; [by intros (? & ? & ?) | by intros (_ & _ & ? & _)]. }
  destruct (validate_action action) as [|e2 es2]; simpl.
  2: { split; [by intros (? & ? & ?) | by intros (_ & _ & _ & ? & _)]. }
  destruct (logs !! oid) eqn:Hfree.
  - split; [by intros (? & ? & ?) | by intros (_ & _ & _ & _ & ?)].
  - split; [eauto 10 | eauto].
Qed.


(** X5.  [createLog] with an action outside create, update, delete and
    view is rejected with a validation error on [action] and writes
    nothing; for a non-empty action the error is the one of the [enum]
    validator. *)
Theorem createLog_rejects_unknown_action now oid changedBy entityId
    entityType action oldData newData (logs : gmap ObjectId (Doc ObjectId)) :
  action ∉ actions →
  ∃ errors,
    createLog now oid changedBy entityId entityType action oldData newData logs
      = (Rejected (ValidationError errors), logs) ∧
    "action" ∈ error_path <$> errors ∧
    (action ≠ "" →
     ValidatorFailure "action" "Action must be one of: create, update, delete, view"
       ∈ errors).
Proof.
  intros Hnot.
  assert (Hv : ∃ message, validate_action action = [ValidatorFailure "action" message] ∧
               (action ≠ "" →
                message = "Action must be one of: create, update, delete, view")).
  { unfold validate_action, required, enum.
    rewrite bool_decide_eq_false_2 by done.
    destruct (String.eqb_spec action ""); simpl.
    - eexists; split; [done|]. done.
    - eexists; split; [done|]. done. }
  destruct Hv as (message & Hv & Hmsg).
  exists (cast_failure "changed_by" (castObjectId changedBy) ++
          cast_failure "entity_id" (castObjectId entityId) ++
          validate_entity_type entityType ++ validate_action action).
  split; [|split].
  - unfold createLog. rewrite Hv.
    destruct (castObjectId changedBy), (castObjectId entityId),
      (validate_entity_type entityType); done.
  - rewrite Hv, !fmap_app. rewrite !elem_of_app. right; right; right.
    apply list_elem_of_here.
  - intros Hne. rewrite Hv, (Hmsg Hne), !elem_of_app. right; right; right.
    apply list_elem_of_here.
Qed.

End AuditRecorderMore.

(** ** The dispatcher, once more *)

Section DispatcherMore.
Import Mongoose Notification.
Context {ObjectId : Type} `{Countable ObjectId} `{!ObjectIdCast ObjectId}.







End DispatcherMore.

(** ** The read-state tracker, once more *)

Section ReadStateMore.
Import Mongoose Notification.
Context {ObjectId : Type} `{Countable ObjectId} `{!ObjectIdCast ObjectId}.

(** X9.  [markAsRead] and then [markAsUnread] on a stored, valid, unread
    notification both resolve and give back the notification and the
    store as they were. *)
Theorem markAsRead_markAsUnread now1 now2 (this : Doc ObjectId) (db : DB ObjectId) :
  notifications db !! _id this = Some this →
  fields_valid this →
  is_read this = false → read_at this = None →
  ∃ once db1,
    markAsRead now1 this db = (Resolved once, db1) ∧
    is_read once = true ∧ read_at once = Some now1 ∧
    notifications db1 !! _id this = Some once ∧
    markAsUnread now2 once db1 = (Resolved this, db).
Proof.
  intros Hstored Hvalid Hread Hat. unfold fields_valid in Hvalid.
  set (once := set_read_state this true (Some now1)).
  set (db1 := with_notifications db (<[_id this := once]> (notifications db))).
  assert (Hstored1 : notifications db1 !! _id once = Some once)
    by apply lookup_insert_eq.
  exists once, db1.
  rewrite (markAsUnread_loaded now2 once db1 Hstored1).
  rewrite (markAsRead_loaded _ this db Hstored). simpl. rewrite Hvalid.
  split; [done|]. split; [done|]. split; [done|]. split; [done|].
  change (set_read_state once false None) with (set_read_state this false None).
  rewrite (set_read_state_same this false None) by done.
  unfold db1, with_notifications; simpl.
  rewrite insert_insert_eq, insert_id by done. by destruct db.
Qed.

(** X10.  [markAsUnread] on a stored, valid notification resolves and
    leaves it unread without [read_at]; a second call resolves with the
    same document and writes nothing, whatever the clock. *)
Theorem markAsUnread_idempotent now1 now2 (this : Doc ObjectId) (db : DB ObjectId) :
  notifications db !! _id this = Some this →
  fields_valid this →
  ∃ once db1,
    markAsUnread now1 this db = (Resolved once, db1) ∧
    is_read once = false ∧ read_at once = None ∧
    notifications db1 !! _id this = Some once ∧
    (∀ id, id ≠ _id this → notifications db1 !! id = notifications db !! id) ∧
    markAsUnread now2 once db1 = (Resolved once, db1).
Proof.
  intros Hstored Hvalid. unfold fields_valid in Hvalid.
  set (once := set_read_state this false None).
  set (db1 := with_notifications db (<[_id this := once]> (notifications db))).
  assert (Hstored1 : notifications db1 !! _id once = Some once)
    by apply lookup_insert_eq.
  exists once, db1.
  rewrite (markAsUnread_loaded now2 once db1 Hstored1).
  rewrite (markAsUnread_loaded _ this db Hstored). simpl. rewrite Hvalid.
  split; [done|]. split; [done|]. split; [done|]. split; [done|].
  split; [intros id Hne; by apply lookup_insert_ne|].
  change (set_read_state once false None) with once.
  unfold db1, with_notifications; simpl. by rewrite insert_insert_eq.
Qed.

(** No notification of the user is unread after [markAllAsRead]. *)
Lemma markAllAsRead_none_unread now userId user (db : DB ObjectId) :
  castObjectId userId = Some user →
  map_Forall (fun _ doc => unread_of user doc = false)
             (notifications (markAllAsRead now userId db).2).
Proof.
  intros Hcast. unfold markAllAsRead. rewrite Hcast. simpl.
  intros id doc'. rewrite lookup_fmap.
  destruct (notifications db !! id) as [doc|]; [|done].
  intros [= <-]. simpl. destruct (unread_of user doc) eqn:Hun; [|done].
  unfold unread_of. simpl. by rewrite andb_false_r.
Qed.

(** X11.  A second [markAllAsRead] for the same user modifies no document
    and leaves the store as the first call left it: the time read of a
    notification is not stamped again. *)
Theorem markAllAsRead_again now1 now2 userId user (db : DB ObjectId) :
  castObjectId userId = Some user →
  markAllAsRead now2 userId (markAllAsRead now1 userId db).2
  = (Resolved 0%nat, (markAllAsRead now1 userId db).2).
Proof.
  intros Hcast.
  pose proof (markAllAsRead_none_unread now1 userId user db Hcast) as Hnone.
  destruct (markAllAsRead now1 userId db) as [r db1]. cbn [snd] in *.
  unfold markAllAsRead. rewrite Hcast. f_equal.
  - f_equal. apply map_size_empty_iff, map_empty_filter.
    intros id doc Hdoc. simpl. rewrite (Hnone id doc Hdoc). done.
  - destruct db1 as [types coll]. unfold with_notifications. simpl in *. f_equal.
    apply map_eq. intros id. rewrite lookup_fmap.
    destruct (coll !! id) as [doc|] eqn:Hdoc; [|done]. simpl.
    by rewrite (Hnone id doc Hdoc).
Qed.

(** X12.  [cleanupOldNotifications] resolves with the number of
    notifications it has removed, and running it again at the same time
    with the same age removes nothing. *)
Theorem cleanup_counts_deleted now days (db : DB ObjectId) :
  ∃ deleted db',
    cleanupOldNotifications now days db = (Resolved deleted, db') ∧
    size (notifications db) = (deleted + size (notifications db'))%nat ∧
    cleanupOldNotifications now days db' = (Resolved 0%nat, db').
Proof.
  eexists _, _. split; [reflexivity|]. simpl.
  set (cutoff := cutoffDate now (default 30 days)).
  set (P := fun kv : ObjectId * Doc ObjectId => stale cutoff kv.2 = true).
  assert (Hkeep : filter (fun kv : ObjectId * Doc ObjectId => stale cutoff kv.2 = false)
                         (notifications db)
                  = filter (fun kv => ¬ P kv) (notifications db)).
  { apply map_filter_ext. intros id doc _. unfold P. simpl.
    by destruct (stale cutoff doc). }
  split.
  - rewrite Hkeep.
    rewrite <- (map_filter_union_complement P (notifications db)) at 1.
    apply map_size_disj_union, map_disjoint_filter_complement.
  - unfold cleanupOldNotifications. fold cutoff. simpl. f_equal.
    + f_equal. apply map_size_empty_iff, map_empty_filter.
      intros id doc [_ Hdoc]%map_lookup_filter_Some. simpl in *. congruence.
    + unfold with_notifications. simpl. f_equal.
      apply map_filter_id. by intros id doc [_ Hdoc]%map_lookup_filter_Some.
Qed.

(** X13.  After a clean-up with an age below 90 days (the default 30
    included), a pass of the TTL monitor at that time finds nothing
    left to expire. *)
Theorem cleanup_covers_ttl now days (db : DB ObjectId) :
  default 30 days < 90 →
  ttl_pass ttl_index now (notifications (cleanupOldNotifications now days db).2)
  = notifications (cleanupOldNotifications now days db).2.
Proof.
  intros Hdays. simpl. apply map_filter_id.
  intros id doc [_ Hdoc]%map_lookup_filter_Some. simpl in *.
  unfold expired, stale, cutoffDate in *. simpl.
  destruct (is_read doc); [|done]. simpl in *.
  destruct (read_at doc) as [date|]; [|done].
  apply bool_decide_eq_false in Hdoc. apply bool_decide_eq_false. lia.
Qed.



End ReadStateMore.

(** ** The template renderer, once more *)

Section RendererMore.
Import NotificationType.
Local Arguments append !_ _ / : simpl nomatch.

(** Text without an opening brace has no match at all. *)
Lemma replace_at_plain_text key replacement before text :
  free_of "{" text = true → replace_at key replacement before text = text.
Proof.
  intros Htext. rewrite <- (append_empty_r text) at 1.
  rewrite replace_at_text by done. rewrite replace_at_step.
  by rewrite append_empty_r.
Qed.

(** X15.  A template without an opening brace renders to itself,
    whatever the values given for the (plain) keys. *)
Theorem renderTemplate_without_braces {ObjectId} (this : Doc ObjectId) variables :
  free_of "{" (template this) = true →
  forallb (fun kv : string * string => plain_name kv.1) variables = true →
  renderTemplate this variables = template this.
Proof.
  intros Htext _. unfold renderTemplate.
  induction variables as [|[k v] variables IH]; [done|].
  cbn [foldl fst snd]. unfold replace_all. by rewrite replace_at_plain_text.
Qed.

Lemma span_spaces_run sp rest :
  forallb Js.is_space (list_ascii_of_string sp) = true →
  Js.span_spaces rest = ("", rest) →
  Js.span_spaces (sp +:+ rest) = (sp, rest).
Proof.
  intros Hsp Hrest. induction sp as [|c sp IH]; [done|].
  change (Js.is_space c && forallb Js.is_space (list_ascii_of_string sp) = true) in Hsp.
  apply andb_true_iff in Hsp as [Hc Hsp]. simpl. by rewrite Hc, IH.
Qed.

(** The placeholder may have white space inside its braces. *)
Lemma match_placeholder_spaced key sp1 sp2 rest :
  plain_name key = true → key ≠ "" →
  forallb Js.is_space (list_ascii_of_string sp1) = true →
  forallb Js.is_space (list_ascii_of_string sp2) = true →
  match_placeholder key ("{{" +:+ sp1 +:+ key +:+ sp2 +:+ "}}" +:+ rest)
  = Some ("{{" +:+ sp1 +:+ key +:+ sp2 +:+ "}}", rest).
Proof.
  intros Hkey Hne Hsp1 Hsp2. unfold match_placeholder.
  rewrite strip_prefix_app.
  assert (Hhead : Js.span_spaces (key +:+ sp2 +:+ "}}" +:+ rest)
                  = ("", key +:+ sp2 +:+ "}}" +:+ rest)).
  { destruct key as [|c key]; [done|].
    rewrite plain_name_cons in Hkey. apply andb_true_iff in Hkey as [Hc _].
    simpl. by rewrite (word_char_not_space c Hc). }
  rewrite (span_spaces_run sp1 _ Hsp1 Hhead). cbv beta iota.
  rewrite strip_prefix_app.
  rewrite (span_spaces_run sp2 ("}}" +:+ rest) Hsp2 eq_refl). cbv beta iota.
  by rewrite strip_prefix_app.
Qed.

(** X16.  A placeholder written with white space inside its braces is
    filled like one written without: a template with one such
    placeholder between texts without braces renders to the texts
    around the value. *)
Theorem renderTemplate_spaced_placeholder {ObjectId} (this : Doc ObjectId)
    key value before sp1 sp2 after :
  template this = before +:+ "{{" +:+ sp1 +:+ key +:+ sp2 +:+ "}}" +:+ after →
  plain_name key = true → key ≠ "" →
  forallb Js.is_space (list_ascii_of_string sp1) = true →
  forallb Js.is_space (list_ascii_of_string sp2) = true →
  free_of "{" before = true → free_of "{" after = true →
  free_of "$" value = true →
  renderTemplate this [(key, value)] = before +:+ value +:+ after.
Proof.
  intros Htemplate Hkey Hne Hsp1 Hsp2 Hbefore Hafter Hvalue.
  unfold renderTemplate. cbn [foldl fst snd]. unfold replace_all.
  rewrite Htemplate, or_empty_id, replace_at_text by done. f_equal.
  rewrite replace_at_step, match_placeholder_spaced by done.
  rewrite getSubstitution_literal by done. f_equal.
  by apply replace_at_plain_text.
Qed.

Lemma plain_name_no_dollar name : plain_name name = true → free_of "$" name = true.
Proof.
  induction name as [|c name IH]; [done|].
  rewrite plain_name_cons, free_of_cons.
  intros [Hc Hname]%andb_true_iff. rewrite IH by done.
  revert Hc. destruct c as [[] [] [] [] [] [] [] []]; vm_compute; congruence.
Qed.

(** X17.  A value is scanned again by the passes of the keys after it:
    with the value of [a] being the placeholder of [b], the template
    [{{a}}] renders to the value of [b] when [a] comes first among the
    keys, and to the placeholder of [b] when [b] comes first. *)
Theorem renderTemplate_rescans_values {ObjectId} (this : Doc ObjectId) a b value :
  template this = "{{" +:+ a +:+ "}}" →
  plain_name a = true → plain_name b = true → a ≠ b →
  free_of "$" value = true →
  renderTemplate this [(a, "{{" +:+ b +:+ "}}"); (b, value)] = value ∧
  renderTemplate this [(b, value); (a, "{{" +:+ b +:+ "}}")] = "{{" +:+ b +:+ "}}".
Proof.
  intros Htemplate Ha Hb Hab Hvalue.
  assert (Hmarker : free_of "$" ("{{" +:+ b +:+ "}}") = true).
  { change ("{{" +:+ b +:+ "}}") with ("{{" +:+ (b +:+ "}}")).
    rewrite !free_of_app, (plain_name_no_dollar b Hb). done. }
  assert (Hone : ∀ name, "{{" +:+ name +:+ "}}" = unparse [Placeholder name]).
  { intros name. unfold unparse. simpl. by rewrite !append_empty_r. }
  assert (Hpass : ∀ key replacement name,
    plain_name key = true → plain_name name = true →
    free_of "$" replacement = true →
    replace_all key replacement ("{{" +:+ name +:+ "}}")
    = if String.eqb key name then replacement else "{{" +:+ name +:+ "}}").
  { intros key replacement name Hkey Hname Hrep. unfold replace_all.
    rewrite (Hone name), replace_at_unparse; [|done|done|by simpl; rewrite Hname].
    simpl. destruct (String.eqb key name); simpl; by rewrite ?append_empty_r. }
  unfold renderTemplate. rewrite Htemplate. cbn [foldl fst snd].
  rewrite !or_empty_id. split.
  - rewrite (Hpass a) by done. rewrite String.eqb_refl.
    rewrite (Hpass b) by done. by rewrite String.eqb_refl.
  - rewrite (Hpass b) by done.
    destruct (String.eqb_spec b a) as [->|_]; [done|].
    rewrite (Hpass a) by done. by rewrite String.eqb_refl.
Qed.

End RendererMore.

(** ** The template registry *)

Section Registry.
Import NotificationType.
Context {ObjectId : Type}.
Implicit Types (types : list (Doc ObjectId)) (env : nat → Z * ObjectId).
Local Arguments findOne : simpl never.

Lemma findOne_cons k (t : Doc ObjectId) types :
  findOne k (t :: types) = if String.eqb (key t) k then Some t else findOne k types.
Proof. reflexivity. Qed.

Lemma findOne_Some k types t :
  findOne k types = Some t → t ∈ types ∧ key t = k.
Proof.
  induction types as [|t' types IH]; [done|]. rewrite findOne_cons.
  destruct (String.eqb_spec (key t') k) as [Hk|_].
  - intros [= <-]. split; [apply list_elem_of_here | done].
  - intros [Hin Hkey]%IH. split; [by apply list_elem_of_further | done].
Qed.

Lemma findOne_app_None k types more :
  findOne k types = None → findOne k (types ++ more) = findOne k more.
Proof.
  induction types as [|t types IH]; [done|]. cbn [app]. rewrite !findOne_cons.
  destruct (String.eqb (key t) k); [done | apply IH].
Qed.

Lemma findOne_app_Some k types more t :
  findOne k types = Some t → findOne k (types ++ more) = Some t.
Proof.
  induction types as [|t' types IH]; [done|]. cbn [app]. rewrite !findOne_cons.
  destruct (String.eqb (key t') k); [done | apply IH].
Qed.

(** The update touches the first document of the key, when there is
    one, and keeps the keys of all. *)
Lemma update_first_spec now k d tpl types :
  match update_first now k d tpl types with
  | Some (t', types') =>
      findOne k types' = Some t' ∧ key t' = k ∧ description t' = Some d ∧
      template t' = tpl ∧ updated_at t' = now ∧
      key <$> types' = key <$> types ∧
      (∀ k', k' ≠ k → findOne k' types' = findOne k' types) ∧
      (∀ t, findOne k types = Some t →
            description t = Some d → template t = tpl →
            Forall2 same_content types types')
  | None => findOne k types = None
  end.
Proof.
  induction types as [|t types IH]; [done|]. cbn [update_first]. rewrite findOne_cons.
  destruct (String.eqb_spec (key t) k) as [Hk|Hk].
  - rewrite findOne_cons. simpl. rewrite String.eqb_refl.
    repeat split; try done.
    + by rewrite Hk.
    + intros k' Hne. rewrite !findOne_cons. simpl.
      destruct (String.eqb_spec k k') as [?|_]; [congruence|].
      destruct (String.eqb_spec (key t) k') as [?|_]; [congruence | done].
    + intros t0 [= <-] Hd Htpl. constructor.
      * by repeat split.
      * apply Forall_Forall2_diag, Forall_forall. by intros.
  - destruct (update_first now k d tpl types) as [[t' types']|]; [|done].
    destruct IH as (Hfind & Hkey & Hd & Htpl & Hup & Hkeys & Hother & Hsame).
    rewrite findOne_cons.
    destruct (String.eqb_spec (key t) k) as [?|_]; [done|].
    repeat split; try done.
    + rewrite !fmap_cons. by rewrite Hkeys.
    + intros k' Hne. rewrite !findOne_cons.
      destruct (String.eqb (key t) k'); [done | by apply Hother].
    + intros t0 Ht0 Hd0 Htpl0. constructor; [done | by eapply Hsame].
Qed.

(** A type found after [findOneAndUpdate] of its key is the type given. *)
Lemma findOneAndUpdate_same now oid k d tpl types :
  ∃ t, findOne k (findOneAndUpdate now oid (k, d, tpl) types).2 = Some t ∧
       key t = k ∧ description t = Some d ∧ template t = tpl.
Proof.
  unfold findOneAndUpdate. pose proof (update_first_spec now k d tpl types) as Hspec.
  destruct (update_first now k d tpl types) as [[t' types']|].
  - destruct Hspec as (? & ? & ? & ? & _). by exists t'.
  - eexists. cbn [snd]. rewrite findOne_app_None by done.
    rewrite findOne_cons. simpl. rewrite String.eqb_refl. done.
Qed.

Lemma findOneAndUpdate_other now oid k d tpl types k' :
  k' ≠ k →
  findOne k' (findOneAndUpdate now oid (k, d, tpl) types).2 = findOne k' types.
Proof.
  intros Hne. unfold findOneAndUpdate.
  pose proof (update_first_spec now k d tpl types) as Hspec.
  destruct (update_first now k d tpl types) as [[t' types']|].
  - destruct Hspec as (_ & _ & _ & _ & _ & _ & Hother & _). by apply Hother.
  - cbn [snd]. destruct (findOne k' types) as [t|] eqn:Hk'.
    + by apply findOne_app_Some.
    + rewrite findOne_app_None by done. rewrite findOne_cons. simpl.
      destruct (String.eqb_spec k k'); [congruence | done].
Qed.

Lemma seed_from_other env i defaults types k :
  k ∉ keys_of defaults →
  findOne k (seed_from env i defaults types) = findOne k types.
Proof.
  revert i types. induction defaults as [|[[k' d] tpl] defaults IH];
    intros i types Hk; [done|].
  cbn [seed_from]. apply not_elem_of_cons in Hk as [Hne Hk].
  rewrite IH by done. by apply findOneAndUpdate_other.
Qed.

Lemma seed_from_finds env i defaults types :
  NoDup (keys_of defaults) →
  Forall (fun type => ∃ t, findOne type.1.1 (seed_from env i defaults types) = Some t ∧
                           key t = type.1.1 ∧ description t = Some type.1.2 ∧
                           template t = type.2) defaults.
Proof.
  revert i types. induction defaults as [|[[k d] tpl] defaults IH];
    intros i types Hnodup; [constructor|].
  apply NoDup_cons in Hnodup as [Hk Hnodup]. constructor.
  - cbn [seed_from fst snd]. rewrite seed_from_other by done.
    apply findOneAndUpdate_same.
  - cbn [seed_from]. by apply IH.
Qed.

Lemma defaultTypes_NoDup : NoDup (keys_of defaultTypes).
Proof. apply (bool_decide_unpack _). vm_compute. exact I. Qed.

Lemma findOne_None k types :
  findOne k types = None → k ∉ key <$> types.
Proof.
  induction types as [|t types IH]; [intros _; apply not_elem_of_nil|].
  rewrite findOne_cons, fmap_cons.
  destruct (String.eqb_spec (key t) k) as [?|Hne]; [done|].
  intros Hnone. apply not_elem_of_cons. split; [done | by apply IH].
Qed.

Lemma same_content_trans (a b c : Doc ObjectId) :
  same_content a b → same_content b c → same_content a c.
Proof.
  intros (? & ? & ? & ? & ?) (? & ? & ? & ? & ?). repeat split; congruence.
Qed.

Lemma seed_from_same_content env i defaults types :
  NoDup (keys_of defaults) →
  Forall (fun type => ∃ t, findOne type.1.1 types = Some t ∧
                           description t = Some type.1.2 ∧ template t = type.2)
         defaults →
  Forall2 same_content types (seed_from env i defaults types).
Proof.
  revert i types. induction defaults as [|[[k d] tpl] defaults IH];
    intros i types Hnodup Hfound.
  - apply Forall_Forall2_diag, Forall_forall. by intros.
  - apply NoDup_cons in Hnodup as [Hk Hnodup].
    apply Forall_cons in Hfound as [(t & Ht & Hd & Htpl) Hfound].
    cbn [seed_from fst snd] in *.
    set (types1 := (findOneAndUpdate (env i).1 (env i).2 (k, d, tpl) types).2).
    assert (Hstep : Forall2 same_content types types1).
    { unfold types1, findOneAndUpdate.
      pose proof (update_first_spec (env i).1 k d tpl types) as Hspec.
      destruct (update_first (env i).1 k d tpl types) as [[t' types']|].
      - destruct Hspec as (_ & _ & _ & _ & _ & _ & _ & Hsame). by eapply Hsame.
      - congruence. }
    assert (Hrest : Forall2 same_content types1
                      (seed_from env (S i) defaults types1)).
    { apply IH; [done|]. apply Forall_forall. intros [[k' d'] tpl'] Hin.
      rewrite Forall_forall in Hfound. destruct (Hfound _ Hin) as (t' & Ht' & ?).
      exists t'. split; [|done]. cbn [fst snd] in *. unfold types1.
      rewrite findOneAndUpdate_other; [done|]. intros ->. apply Hk.
      unfold keys_of. apply list_elem_of_fmap. by exists (k, d', tpl'). }
    clear -Hstep Hrest. revert Hrest. generalize (seed_from env (S i) defaults types1).
    induction Hstep as [|a b types types1 Hab Hstep IH]; intros final Hrest.
    + done.
    + inversion Hrest as [|b' c ? final' Hbc Hrest']; subst.
      constructor; [by eapply same_content_trans | by apply IH].
Qed.

Lemma findOneAndUpdate_keys now oid k d tpl types :
  NoDup (key <$> types) →
  NoDup (key <$> (findOneAndUpdate now oid (k, d, tpl) types).2).
Proof.
  intros Hnodup. unfold findOneAndUpdate.
  pose proof (update_first_spec now k d tpl types) as Hspec.
  destruct (update_first now k d tpl types) as [[t' types']|].
  - cbn [snd]. destruct Hspec as (_ & _ & _ & _ & _ & Hkeys & _). by rewrite Hkeys.
  - cbn [snd]. rewrite fmap_app. apply NoDup_app. split; [done|]. split.
    + intros k' Hin [->|[]%elem_of_nil]%elem_of_cons.
      by apply (findOne_None k types).
    + apply NoDup_singleton.
Qed.

(** X18.  After [seedDefaultTypes], whatever the collection held
    before, every type of the default catalogue is found under its key,
    with the description and the template of the catalogue. *)
Theorem seedDefaultTypes_finds_defaults env types :
  Forall (fun type =>
            ∃ t, findOne type.1.1 (seedDefaultTypes env types) = Some t ∧
                 key t = type.1.1 ∧ description t = Some type.1.2 ∧
                 template t = type.2)
         defaultTypes.
Proof. apply seed_from_finds, defaultTypes_NoDup. Qed.


(** X20.  Seeding a seeded collection again inserts nothing and changes
    no document but for [updated_at]: identifiers, keys, descriptions,
    templates and creation dates are, document by document, the same. *)
Theorem seedDefaultTypes_again env1 env2 types :
  Forall2 same_content (seedDefaultTypes env1 types)
          (seedDefaultTypes env2 (seedDefaultTypes env1 types)).
Proof.
  apply seed_from_same_content; [apply defaultTypes_NoDup|].
  eapply Forall_impl; [apply (seed_from_finds env1 0 defaultTypes types),
                       defaultTypes_NoDup|].
  intros type (t & Ht & _ & Hd & Htpl). by exists t.
Qed.

(** X21.  [seedDefaultTypes] keeps the keys unique: from a collection
    without two types of one key it makes a collection without two
    types of one key. *)
Theorem seedDefaultTypes_unique_keys env types :
  NoDup (key <$> types) → NoDup (key <$> seedDefaultTypes env types).
Proof.
  unfold seedDefaultTypes. generalize 0%nat. generalize defaultTypes.
  intros defaults. revert types.
  induction defaults as [|[[k d] tpl] defaults IH]; intros types i Hnodup; [done|].
  cbn [seed_from]. apply IH. by apply findOneAndUpdate_keys.
Qed.


End Registry.

(** ** Dispatching on a seeded registry *)

Section SeededDispatcher.
Import Mongoose Notification.
Context {ObjectId : Type} `{Countable ObjectId} `{!ObjectIdCast ObjectId}.

(** X23.  Once the registry is seeded, [createNotification] with a key
    of the default catalogue is never rejected for a missing type,
    whatever the other arguments and the notifications stored. *)
Theorem createNotification_seeded_key env types now oid userId title type
    triggeredBy entityId entityType (coll : gmap ObjectId (Doc ObjectId)) :
  Forall (fun default =>
            ∀ message,
              (createNotification now oid userId default.1.1 title type triggeredBy
                 entityId entityType
                 {| notification_types := NotificationType.seedDefaultTypes env types;
                    notifications := coll |}).1
              ≠ Rejected (JsError message))
         NotificationType.defaultTypes.
Proof.
  eapply Forall_impl; [apply (seed_from_finds env 0 NotificationType.defaultTypes types),
                       defaultTypes_NoDup|].
  intros default (t & Ht & _) message. unfold createNotification.
  cbn [notification_types notifications].
  change (NotificationType.seed_from env 0 NotificationType.defaultTypes types)
    with (NotificationType.seedDefaultTypes env types) in Ht.
  rewrite Ht.
  destruct (castObjectId userId), (cast_optional triggeredBy),
    (cast_optional entityId); simpl; try done.
  destruct (validate_fields _ _ _); [|done].
  by destruct (coll !! oid).
Qed.

End SeededDispatcher.

(** ** Worked instances of the further properties *)

Section MoreExamples.
Import Mongoose Example.


Lemma createLog_rejects_unknown_action_witness :
  ("archive" ∉ ActivityLog.actions) ∧
  ∃ errors,
    ActivityLog.createLog 1000 id1 alice bob "users" "archive" Js.Undefined
      new_state ∅ = (Rejected (ValidationError errors), ∅) ∧
    "action" ∈ error_path <$> errors ∧
    ("archive" ≠ "" →
     ValidatorFailure "action" "Action must be one of: create, update, delete, view"
       ∈ errors).
Proof.
  assert (Hnot : "archive" ∉ ActivityLog.actions)
    by (apply (bool_decide_unpack _); vm_compute; exact I).
  split; [exact Hnot|].
  exact (createLog_rejects_unknown_action 1000 id1 alice bob "users" "archive"
           Js.Undefined new_state ∅ Hnot).
Defined.



Lemma markAsRead_markAsUnread_witness :
  Notification.notifications inbox !! id2 = Some (note id2 alice false None) ∧
  Notification.fields_valid (note id2 alice false None) ∧
  ∃ once db1,
    Notification.markAsRead 1000 (note id2 alice false None) inbox
      = (Resolved once, db1) ∧
    Notification.markAsUnread 2000 once db1
      = (Resolved (note id2 alice false None), inbox).
Proof.
  assert (Hstored : Notification.notifications inbox
                      !! Notification._id (note id2 alice false None)
                    = Some (note id2 alice false None)) by (vm_compute; reflexivity).
  assert (Hvalid : Notification.fields_valid (note id2 alice false None))
    by (vm_compute; reflexivity).
  split; [exact Hstored|]. split; [exact Hvalid|].
  destruct (markAsRead_markAsUnread 1000 2000 _ inbox Hstored Hvalid eq_refl eq_refl)
    as (once & db1 & H1 & _ & _ & _ & H2).
  exists once, db1. split; [exact H1 | exact H2].
Defined.

Lemma markAsUnread_idempotent_witness :
  Notification.notifications inbox !! id3 = Some (note id3 alice true (Some 0)) ∧
  Notification.fields_valid (note id3 alice true (Some 0)) ∧
  ∃ once db1,
    Notification.markAsUnread 1000 (note id3 alice true (Some 0)) inbox
      = (Resolved once, db1) ∧
    Notification.read_at once = None ∧
    Notification.markAsUnread 2000 once db1 = (Resolved once, db1).
Proof.
  assert (Hstored : Notification.notifications inbox
                      !! Notification._id (note id3 alice true (Some 0))
                    = Some (note id3 alice true (Some 0))) by (vm_compute; reflexivity).
  assert (Hvalid : Notification.fields_valid (note id3 alice true (Some 0)))
    by (vm_compute; reflexivity).
  split; [exact Hstored|]. split; [exact Hvalid|].
  destruct (markAsUnread_idempotent 1000 2000 _ inbox Hstored Hvalid)
    as (once & db1 & H1 & _ & Hat & _ & _ & H2).
  exists once, db1. split; [exact H1|]. split; [exact Hat | exact H2].
Defined.

Lemma markAllAsRead_again_witness :
  castObjectId alice = Some alice ∧
  Notification.markAllAsRead 9000 alice (Notification.markAllAsRead 5000 alice inbox).2
  = (Resolved 0%nat, (Notification.markAllAsRead 5000 alice inbox).2).
Proof.
  assert (Hcast : castObjectId alice = Some alice) by (vm_compute; reflexivity).
  split; [exact Hcast|].
  exact (markAllAsRead_again 5000 9000 alice alice inbox Hcast).
Defined.

Lemma cleanup_covers_ttl_witness :
  default 30 (None : option Z) < 90 ∧
  Mongoose.ttl_pass Notification.ttl_index forty_days
    (Notification.notifications
       (Notification.cleanupOldNotifications forty_days None inbox).2)
  = Notification.notifications
      (Notification.cleanupOldNotifications forty_days None inbox).2.
Proof.
  assert (Hdays : default 30 (None : option Z) < 90) by reflexivity.
  split; [exact Hdays|].
  exact (cleanup_covers_ttl forty_days None inbox Hdays).
Defined.

Lemma renderTemplate_without_braces_witness :
  NotificationType.free_of "{" "Maintenance tonight, at a cost of $0." = true ∧
  NotificationType.renderTemplate
    (type_with "maintenance" "Maintenance tonight, at a cost of $0.")
    [("project_name", "Alpha"); ("amount", "$&")]
  = "Maintenance tonight, at a cost of $0.".
Proof.
  assert (Hfree : NotificationType.free_of "{" "Maintenance tonight, at a cost of $0."
                  = true) by (vm_compute; reflexivity).
  split; [exact Hfree|].
  exact (renderTemplate_without_braces
           (type_with "maintenance" "Maintenance tonight, at a cost of $0.")
           [("project_name", "Alpha"); ("amount", "$&")] Hfree eq_refl).
Defined.

Lemma renderTemplate_spaced_placeholder_witness :
  NotificationType.renderTemplate (type_with "greeting" "Hello {{ name }}!")
    [("name", "Bob")] = "Hello Bob!".
Proof.
  exact (renderTemplate_spaced_placeholder (type_with "greeting" "Hello {{ name }}!")
           "name" "Bob" "Hello " " " " " "!" eq_refl eq_refl
           ltac:(discriminate) eq_refl eq_refl eq_refl eq_refl eq_refl).
Defined.

Lemma renderTemplate_rescans_values_witness :
  NotificationType.renderTemplate (type_with "echo" "{{a}}")
    [("a", "{{b}}"); ("b", "Bob")] = "Bob" ∧
  NotificationType.renderTemplate (type_with "echo" "{{a}}")
    [("b", "Bob"); ("a", "{{b}}")] = "{{b}}".
Proof.
  exact (renderTemplate_rescans_values (type_with "echo" "{{a}}") "a" "b" "Bob"
           eq_refl eq_refl eq_refl ltac:(discriminate) eq_refl).
Defined.


Lemma seedDefaultTypes_unique_keys_witness :
  NoDup (NotificationType.key <$> [task_assigned]) ∧
  NoDup (NotificationType.key <$>
         NotificationType.seedDefaultTypes rounds [task_assigned]).
Proof.
  assert (Hnodup : NoDup (NotificationType.key <$> [task_assigned]))
    by apply NoDup_singleton.
  split; [exact Hnodup|].
  exact (seedDefaultTypes_unique_keys rounds [task_assigned] Hnodup).
Defined.

End MoreExamples.
